(** * The attached-document editor controller and its renderer protocol

    A shallow embedding of
      - [src/application/events/RendererMessages.ts] (module [RendererMessages]),
      - the types of [src/domain] and the ports of [src/contracts] (one
        module for each type and each port, named as in the source),
      - [src/application/AttachedDocEditorController.ts] (module [Controller]),
    together with the part of the JavaScript platform these files call
    (module [Js]: numbers, JSON values, [JSON.parse], [Number], [Math.max],
    [Math.floor], truthiness). *)

From Stdlib Require Import Bool Ascii String List ZArith QArith Qround Lia.
From Stdlib Require DecimalString.
Import ListNotations.
Local Close Scope Q_scope.
Local Open Scope string_scope.
Local Open Scope list_scope.

(* ===================================================================== *)
(** * The JavaScript platform                                             *)
(* ===================================================================== *)

Module Js.

(** ** Exceptions and fallible results

    A thrown JavaScript value is kept as its message. *)

Definition Exn := string.

Inductive result (A : Type) : Type :=
| Ok (a : A)
| Err (e : Exn).
Arguments Ok {A} a.
Arguments Err {A} e.

(** ** Numbers

    A JavaScript number is modelled as NaN, an infinity, or an exact
    rational.  Rounding and overflow to binary64 are not modelled and -0 is
    identified with 0; no statement below depends on either. *)

Inductive JsNumber : Type :=
| JNaN
| JInf (negative : bool)
| JFin (q : Q).

Definition isNaN (n : JsNumber) : bool :=
  match n with JNaN => true | _ => false end.

(** [Math.floor]. *)
Definition Math_floor (x : JsNumber) : JsNumber :=
  match x with
  | JFin q => JFin (inject_Z (Qfloor q))
  | _ => x
  end.

(** [Math.max] of two arguments: NaN is contagious. *)
Definition Math_max (a b : JsNumber) : JsNumber :=
  match a, b with
  | JNaN, _ | _, JNaN => JNaN
  | JInf false, _ | _, JInf false => JInf false
  | JInf true, y => y
  | x, JInf true => x
  | JFin p, JFin q => if Qle_bool p q then JFin q else JFin p
  end.

(** ** Values produced by [JSON.parse]

    Strings are byte strings holding the UTF-8 form of the JavaScript
    string.  An object keeps its members in source order; a later member
    with the same key shadows an earlier one. *)

#[local] Unset Elimination Schemes.
Inductive JsValue : Type :=
| VNull
| VBool (b : bool)
| VNum (n : JsNumber)
| VStr (s : string)
| VArr (items : list JsValue)
| VObj (members : list (string * JsValue)).
#[local] Set Elimination Schemes.

Fixpoint assoc_last (k : string) (ms : list (string * JsValue)) : option JsValue :=
  match ms with
  | [] => None
  | (k', v) :: rest =>
      match assoc_last k rest with
      | Some w => Some w
      | None => if String.eqb k k' then Some v else None
      end
  end.

(** Property read [v.k] for a key that no built-in prototype defines and
    that is not an array index ([None] is [undefined]). *)
Definition get_property (v : JsValue) (k : string) : option JsValue :=
  match v with
  | VObj ms => assoc_last k ms
  | _ => None
  end.

(** [ToBoolean] on a parsed value. *)
Definition truthy (v : JsValue) : bool :=
  match v with
  | VNull => false
  | VBool b => b
  | VNum JNaN => false
  | VNum (JInf _) => true
  | VNum (JFin q) => negb (Qeq_bool q 0)
  | VStr s => negb (String.eqb s EmptyString)
  | VArr _ | VObj _ => true
  end.

(** Truthiness of a [string | null] slot: [null] and the empty string are falsy. *)
Definition truthy_string (o : option string) : option string :=
  match o with
  | Some s => if String.eqb s EmptyString then None else Some s
  | None => None
  end.

(** ** JSON text: tokens *)

Inductive Token : Type :=
| TLBrace | TRBrace | TLBracket | TRBracket | TColon | TComma
| TString (s : string)
| TNumber (q : Q)
| TTrue | TFalse | TNull.

Definition code (c : ascii) : N := N_of_ascii c.

Definition is_ws (c : ascii) : bool :=
  let n := code c in
  (n =? 32)%N || (n =? 9)%N || (n =? 10)%N || (n =? 13)%N.

Definition is_quote (c : ascii) : bool := (code c =? 34)%N.

Definition is_digit (c : ascii) : bool :=
  let n := code c in (48 <=? n)%N && (n <=? 57)%N.

Definition is_lower (c : ascii) : bool :=
  let n := code c in (97 <=? n)%N && (n <=? 122)%N.

(** Characters that can occur inside a JSON number. *)
Definition is_numchar (c : ascii) : bool :=
  is_digit c || Ascii.eqb c "-" || Ascii.eqb c "+" || Ascii.eqb c "."
  || Ascii.eqb c "e" || Ascii.eqb c "E".

Definition hex_digit (c : ascii) : option N :=
  let n := code c in
  if (48 <=? n)%N && (n <=? 57)%N then Some (n - 48)%N
  else if (97 <=? n)%N && (n <=? 102)%N then Some (n - 87)%N
  else if (65 <=? n)%N && (n <=? 70)%N then Some (n - 55)%N
  else None.

(** *** Numbers: an optional minus sign, an integer part without a leading
    zero, an optional fraction, an optional exponent *)

Fixpoint span_digits (cs : list ascii) : list ascii * list ascii :=
  match cs with
  | c :: rest =>
      if is_digit c
      then let (ds, tl) := span_digits rest in (c :: ds, tl)
      else ([], cs)
  | [] => ([], [])
  end.

Definition digits_value (ds : list ascii) : Z :=
  fold_left (fun acc c => (10 * acc + Z.of_N (code c - 48))%Z) ds 0%Z.

Definition leading_zero (ds : list ascii) : bool :=
  match ds with
  | c :: _ :: _ => Ascii.eqb c "0"
  | _ => false
  end.

Definition number_value (cs : list ascii) : option Q :=
  let (neg, cs1) :=
    match cs with
    | c :: r => if Ascii.eqb c "-" then (true, r) else (false, cs)
    | [] => (false, cs)
    end in
  let (ip, cs2) := span_digits cs1 in
  match ip with
  | [] => None
  | _ =>
    if leading_zero ip then None else
    let frac :=
      match cs2 with
      | c :: r =>
          if Ascii.eqb c "."
          then let (fp, r') := span_digits r in
               match fp with [] => None | _ => Some (fp, r') end
          else Some ([], cs2)
      | [] => Some ([], [])
      end in
    match frac with
    | None => None
    | Some (fp, cs3) =>
      let expo :=
        match cs3 with
        | [] => Some 0%Z
        | c :: r =>
            if Ascii.eqb c "e" || Ascii.eqb c "E" then
              let (eneg, r1) :=
                match r with
                | s :: r' =>
                    if Ascii.eqb s "-" then (true, r')
                    else if Ascii.eqb s "+" then (false, r')
                    else (false, r)
                | [] => (false, r)
                end in
              let (ed, r2) := span_digits r1 in
              match ed, r2 with
              | _ :: _, [] =>
                  Some (if eneg then (- digits_value ed)%Z else digits_value ed)
              | _, _ => None
              end
            else None
        end in
      match expo with
      | None => None
      | Some e =>
        let m := digits_value (ip ++ fp) in
        let q := Qred (inject_Z m * Qpower (inject_Z 10) (e - Z.of_nat (length fp))) in
        Some (if neg then Qred (- q) else q)
      end
    end
  end.

(** *** Strings: UTF-8 (generalised to lone surrogates) of a code point *)

Definition byte (n : N) : ascii := ascii_of_N n.

Definition utf8 (cp : N) : list ascii :=
  if (cp <? 128)%N then [byte cp]
  else if (cp <? 2048)%N then
    [byte (192 + cp / 64); byte (128 + cp mod 64)]
  else if (cp <? 65536)%N then
    [byte (224 + cp / 4096); byte (128 + (cp / 64) mod 64); byte (128 + cp mod 64)]
  else
    [byte (240 + cp / 262144); byte (128 + (cp / 4096) mod 64);
     byte (128 + (cp / 64) mod 64); byte (128 + cp mod 64)].

Definition is_high_surrogate (u : N) : bool := (55296 <=? u)%N && (u <=? 56319)%N.
Definition is_low_surrogate (u : N) : bool := (56320 <=? u)%N && (u <=? 57343)%N.

(** *** The lexer: one pass over the characters *)

Inductive Escape : Type :=
| EscNone
| EscBackslash
| EscHex (digits : list N).

Inductive LexMode : Type :=
| LxIdle
| LxWord (rev_chars : list ascii)
| LxNumber (rev_chars : list ascii)
| LxString (rev_bytes : list ascii) (pending_high : option N) (esc : Escape).

(** Bytes of a string so far, with a pending high surrogate written out. *)
Definition flush (rev_bytes : list ascii) (pending : option N) : list ascii :=
  match pending with
  | Some h => rev (utf8 h) ++ rev_bytes
  | None => rev_bytes
  end.

Definition word_token (rev_chars : list ascii) : option Token :=
  let w := string_of_list_ascii (rev rev_chars) in
  if String.eqb w "true" then Some TTrue
  else if String.eqb w "false" then Some TFalse
  else if String.eqb w "null" then Some TNull
  else None.

Definition number_token (rev_chars : list ascii) : option Token :=
  option_map TNumber (number_value (rev rev_chars)).

(** A character met outside any token: the tokens it yields and the mode
    it leaves the lexer in. *)
Definition lex_idle (c : ascii) : option (list Token * LexMode) :=
  if is_ws c then Some ([], LxIdle)
  else if Ascii.eqb c "{" then Some ([TLBrace], LxIdle)
  else if Ascii.eqb c "}" then Some ([TRBrace], LxIdle)
  else if Ascii.eqb c "[" then Some ([TLBracket], LxIdle)
  else if Ascii.eqb c "]" then Some ([TRBracket], LxIdle)
  else if Ascii.eqb c ":" then Some ([TColon], LxIdle)
  else if Ascii.eqb c "," then Some ([TComma], LxIdle)
  else if is_quote c then Some ([], LxString [] None EscNone)
  else if is_digit c || Ascii.eqb c "-" then Some ([], LxNumber [c])
  else if is_lower c then Some ([], LxWord [c])
  else None.

Definition after_token (t : option Token) (c : ascii) : option (list Token * LexMode) :=
  match t with
  | None => None
  | Some tok =>
      match lex_idle c with
      | Some (toks, m) => Some (tok :: toks, m)
      | None => None
      end
  end.

Definition simple_escape (c : ascii) : option ascii :=
  if is_quote c then Some c
  else if Ascii.eqb c "\" then Some c
  else if Ascii.eqb c "/" then Some c
  else if Ascii.eqb c "b" then Some (byte 8)
  else if Ascii.eqb c "f" then Some (byte 12)
  else if Ascii.eqb c "n" then Some (byte 10)
  else if Ascii.eqb c "r" then Some (byte 13)
  else if Ascii.eqb c "t" then Some (byte 9)
  else None.

Definition hex4 (ds : list N) : N :=
  fold_left (fun acc d => (16 * acc + d)%N) ds 0%N.

Definition lex_step (m : LexMode) (c : ascii) : option (list Token * LexMode) :=
  match m with
  | LxIdle => lex_idle c
  | LxWord w =>
      if is_lower c then Some ([], LxWord (c :: w))
      else after_token (word_token w) c
  | LxNumber w =>
      if is_numchar c then Some ([], LxNumber (c :: w))
      else after_token (number_token w) c
  | LxString bs hi EscNone =>
      if is_quote c then
        Some ([TString (string_of_list_ascii (rev (flush bs hi)))], LxIdle)
      else if Ascii.eqb c "\" then Some ([], LxString bs hi EscBackslash)
      else if (code c <? 32)%N then None
      else Some ([], LxString (c :: flush bs hi) None EscNone)
  | LxString bs hi EscBackslash =>
      if Ascii.eqb c "u" then Some ([], LxString bs hi (EscHex []))
      else
        match simple_escape c with
        | Some b => Some ([], LxString (b :: flush bs hi) None EscNone)
        | None => None
        end
  | LxString bs hi (EscHex ds) =>
      match hex_digit c with
      | None => None
      | Some d =>
          let ds' := ds ++ [d] in
          if (length ds' <? 4)%nat then Some ([], LxString bs hi (EscHex ds'))
          else
            let u := hex4 ds' in
            match hi with
            | Some h =>
                if is_low_surrogate u then
                  let cp := (65536 + (h - 55296) * 1024 + (u - 56320))%N in
                  Some ([], LxString (rev (utf8 cp) ++ bs) None EscNone)
                else if is_high_surrogate u then
                  Some ([], LxString (flush bs hi) (Some u) EscNone)
                else Some ([], LxString (rev (utf8 u) ++ flush bs hi) None EscNone)
            | None =>
                if is_high_surrogate u then Some ([], LxString bs (Some u) EscNone)
                else Some ([], LxString (rev (utf8 u) ++ bs) None EscNone)
            end
      end
  end.

Definition lex_end (m : LexMode) : option (list Token) :=
  match m with
  | LxIdle => Some []
  | LxWord w => option_map (fun t => [t]) (word_token w)
  | LxNumber w => option_map (fun t => [t]) (number_token w)
  | LxString _ _ _ => None
  end.

Fixpoint lex (m : LexMode) (s : string) : option (list Token) :=
  match s with
  | EmptyString => lex_end m
  | String c rest =>
      match lex_step m c with
      | None => None
      | Some (toks, m') =>
          match lex m' rest with
          | Some more => Some (toks ++ more)
          | None => None
          end
      end
  end.

(** ** JSON text: the parser, a stack machine over the tokens *)

Inductive Frame : Type :=
| FrArr (rev_items : list JsValue)
| FrObj (rev_members : list (string * JsValue)) (key : option string).

Inductive Expect : Type :=
| ExValue        (* a value *)
| ExArrFirst     (* a value or the closing bracket *)
| ExObjFirst     (* a key or the closing brace *)
| ExObjKey       (* a key *)
| ExColon
| ExNext         (* a comma or the closer of the open container *)
| ExEnd (v : JsValue).

Definition PState : Type := (list Frame * Expect)%type.

(** A finished value goes into the enclosing container, or is the result. *)
Definition complete (v : JsValue) (stack : list Frame) : option PState :=
  match stack with
  | [] => Some ([], ExEnd v)
  | FrArr items :: rest => Some (FrArr (v :: items) :: rest, ExNext)
  | FrObj ms (Some k) :: rest => Some (FrObj ((k, v) :: ms) None :: rest, ExNext)
  | FrObj _ None :: _ => None
  end.

Definition start_value (t : Token) (stack : list Frame) : option PState :=
  match t with
  | TString s => complete (VStr s) stack
  | TNumber q => complete (VNum (JFin q)) stack
  | TTrue => complete (VBool true) stack
  | TFalse => complete (VBool false) stack
  | TNull => complete VNull stack
  | TLBracket => Some (FrArr [] :: stack, ExArrFirst)
  | TLBrace => Some (FrObj [] None :: stack, ExObjFirst)
  | _ => None
  end.

Definition close_array (stack : list Frame) : option PState :=
  match stack with
  | FrArr items :: rest => complete (VArr (rev items)) rest
  | _ => None
  end.

Definition close_object (stack : list Frame) : option PState :=
  match stack with
  | FrObj ms None :: rest => complete (VObj (rev ms)) rest
  | _ => None
  end.

Definition open_key (k : string) (stack : list Frame) : option PState :=
  match stack with
  | FrObj ms None :: rest => Some (FrObj ms (Some k) :: rest, ExColon)
  | _ => None
  end.

Definition parse_step (st : PState) (t : Token) : option PState :=
  let (stack, ex) := st in
  match ex, t with
  | ExValue, _ => start_value t stack
  | ExArrFirst, TRBracket => close_array stack
  | ExArrFirst, _ => start_value t stack
  | ExObjFirst, TRBrace => close_object stack
  | ExObjFirst, TString k => open_key k stack
  | ExObjKey, TString k => open_key k stack
  | ExColon, TColon => Some (stack, ExValue)
  | ExNext, TComma =>
      match stack with
      | FrArr _ :: _ => Some (stack, ExValue)
      | FrObj _ None :: _ => Some (stack, ExObjKey)
      | _ => None
      end
  | ExNext, TRBracket => close_array stack
  | ExNext, TRBrace => close_object stack
  | _, _ => None
  end.

Fixpoint parse_tokens (st : PState) (ts : list Token) : option JsValue :=
  match ts with
  | [] => match st with ([], ExEnd v) => Some v | _ => None end
  | t :: rest =>
      match parse_step st t with
      | Some st' => parse_tokens st' rest
      | None => None
      end
  end.

(** [JSON.parse]: the parsed value, or a thrown [SyntaxError]. *)
Definition JSON_parse (raw : string) : result JsValue :=
  match lex LxIdle raw with
  | None => Err "SyntaxError"
  | Some ts =>
      match parse_tokens ([], ExValue) ts with
      | Some v => Ok v
      | None => Err "SyntaxError"
      end
  end.

(** ** [Number(v)]

    [ToNumber] of a property read.  The cases on [undefined], [null],
    booleans and numbers are written out; the conversion of a string
    (StringToNumber) and of an array or object (ToPrimitive, which throws a
    [TypeError] when neither [valueOf] nor [toString] is callable) are the
    platform's and are taken as parameters. *)

Record Coercions : Type := {
  StringToNumber : string -> JsNumber;
  ObjectToNumber : JsValue -> result JsNumber;
}.

Definition Number (B : Coercions) (v : option JsValue) : result JsNumber :=
  match v with
  | None => Ok JNaN
  | Some VNull => Ok (JFin 0)
  | Some (VBool b) => Ok (JFin (if b then 1 else 0))
  | Some (VNum n) => Ok n
  | Some (VStr s) => Ok (StringToNumber B s)
  | Some (VArr _ as o) | Some (VObj _ as o) => ObjectToNumber B o
  end.

(** [v == null]: true of [null] and [undefined] only. *)
Definition loosely_null (v : option JsValue) : bool :=
  match v with
  | None | Some VNull => true
  | _ => false
  end.

(** The lexer run over a text that is followed by more. *)
Fixpoint lex_run (m : LexMode) (s : string) : option (list Token * LexMode) :=
  match s with
  | EmptyString => Some ([], m)
  | String c rest =>
      match lex_step m c with
      | None => None
      | Some (toks, m') =>
          match lex_run m' rest with
          | Some (more, m'') => Some (toks ++ more, m'')
          | None => None
          end
      end
  end.

(** ** [JSON.stringify] of a string and of a number

    QuoteJSONString on a well-formed string: the quote, the backslash and
    the control characters are escaped (the short escapes where there is
    one, four lower-case hexadecimal digits otherwise), every other code
    unit is written as it is. *)

Definition hex_char (d : N) : ascii :=
  if (d <? 10)%N then byte (48 + d) else byte (87 + d).

Definition quote_char (c : ascii) : string :=
  let n := code c in
  let esc (x : ascii) := String "\" (String x EmptyString) in
  if (n =? 8)%N then esc "b"%char
  else if (n =? 9)%N then esc "t"%char
  else if (n =? 10)%N then esc "n"%char
  else if (n =? 12)%N then esc "f"%char
  else if (n =? 13)%N then esc "r"%char
  else if (n =? 34)%N then esc c
  else if (n =? 92)%N then esc c
  else if (n <? 32)%N then
    String "\" (String "u" (String "0" (String "0"
      (String (hex_char (n / 16)) (String (hex_char (n mod 16)) EmptyString)))))
  else String c EmptyString.

Fixpoint quote_body (s : string) : string :=
  match s with
  | EmptyString => EmptyString
  | String c rest => (quote_char c ++ quote_body rest)%string
  end.

Definition JSON_quote (s : string) : string :=
  String (byte 34) (quote_body s ++ String (byte 34) EmptyString)%string.

(** The text of a finite number (Number::toString) is the platform's and is
    taken as a parameter; NaN and the infinities are written [null]. *)
Record Formatting : Type := {
  NumberToString : Q -> string;
}.

Definition stringify_number (F : Formatting) (n : JsNumber) : string :=
  match n with
  | JFin q => NumberToString F q
  | _ => "null"
  end.

End Js.

Import Js.

(* ===================================================================== *)
(** * src/application/events/RendererMessages.ts                          *)
(* ===================================================================== *)

Module RendererMessages.

Inductive RendererInboundMessage : Type :=
| READY
| PDF_DIMENSIONS (width height scale : JsNumber) (rotation : option JsNumber)
| RENDER_DONE
| READY_FOR_OVERLAYS
| DEBUG_PAGE_COUNT (pages : JsNumber).

Inductive RendererOutboundCommand : Type :=
| LOAD_PDF_BASE64 (base64 : string)
| SET_PAGE (pageNumber : JsNumber)
| SET_SCALE (scale : JsNumber).

(** The [type] discriminator of an inbound message. *)
Definition msg_type (m : RendererInboundMessage) : string :=
  match m with
  | READY => "READY"
  | PDF_DIMENSIONS _ _ _ _ => "PDF_DIMENSIONS"
  | RENDER_DONE => "RENDER_DONE"
  | READY_FOR_OVERLAYS => "READY_FOR_OVERLAYS"
  | DEBUG_PAGE_COUNT _ => "DEBUG_PAGE_COUNT"
  end.

Section Parse.
Variable B : Coercions.

Definition bind_result {A C} (r : result A) (k : A -> result C) : result C :=
  match r with
  | Ok a => k a
  | Err e => Err e
  end.

(** The body of the [try] block: [Err] is an exception on its way to the
    [catch]. *)
Definition parse_try (raw : string) : result (option RendererInboundMessage) :=
  bind_result (JSON_parse raw) (fun data =>
  if negb (truthy data) then Ok None else
  match get_property data "type" with
  | Some (VStr ty) =>
      if String.eqb ty "READY" then Ok (Some READY)
      else if String.eqb ty "RENDER_DONE" then Ok (Some RENDER_DONE)
      else if String.eqb ty "READY_FOR_OVERLAYS" then Ok (Some READY_FOR_OVERLAYS)
      else if String.eqb ty "PDF_DIMENSIONS" then
        bind_result (Number B (get_property data "width")) (fun width =>
        bind_result (Number B (get_property data "height")) (fun height =>
        bind_result (Number B (get_property data "scale")) (fun scale =>
        bind_result
          (if loosely_null (get_property data "rotation") then Ok None
           else bind_result (Number B (get_property data "rotation"))
                            (fun r => Ok (Some r)))
          (fun rotation =>
        Ok (Some (PDF_DIMENSIONS width height scale rotation))))))
      else if String.eqb ty "DEBUG_PAGE_COUNT" then
        bind_result (Number B (get_property data "pages")) (fun pages =>
        Ok (Some (DEBUG_PAGE_COUNT pages)))
      else Ok None
  | _ => Ok None
  end).

(** [None] is the [null] the function returns. *)
Definition parseRendererInboundMessage (raw : string) : option RendererInboundMessage :=
  match parse_try raw with
  | Ok m => m
  | Err _ => None
  end.

End Parse.

(** [JSON.stringify] of an object literal with two members, in the order
    of the literal. *)
Definition stringify_pair (k1 v1 k2 v2 : string) : string :=
  ("{" ++ JSON_quote k1 ++ ":" ++ v1 ++ "," ++ JSON_quote k2 ++ ":" ++ v2 ++ "}")%string.

Definition serializeRendererCommand (F : Formatting) (cmd : RendererOutboundCommand) : string :=
  match cmd with
  | LOAD_PDF_BASE64 base64 =>
      stringify_pair "type" (JSON_quote "LOAD_PDF_BASE64") "base64" (JSON_quote base64)
  | SET_PAGE pageNumber =>
      stringify_pair "type" (JSON_quote "SET_PAGE") "pageNumber" (stringify_number F pageNumber)
  | SET_SCALE scale =>
      stringify_pair "type" (JSON_quote "SET_SCALE") "scale" (stringify_number F scale)
  end.


End RendererMessages.

Import RendererMessages.

(** JSON text is written with apostrophes for the double quotes:
    [lit s] is [s] with every apostrophe replaced by a double quote. *)
Definition lit (s : string) : string :=
  string_of_list_ascii
    (map (fun c => if Ascii.eqb c "'" then ascii_of_N 34 else c)
         (list_ascii_of_string s)).

(** A stand-in for the platform's string and object coercions, for messages
    whose coerced members are absent, null, booleans or numbers, so that
    neither coercion runs. *)
Definition no_coercion : Coercions :=
  {| StringToNumber := fun _ => JNaN;
     ObjectToNumber := fun _ => Ok JNaN |}.

(* ===================================================================== *)
(** * src/domain: geometry, fields, instances                             *)
(* ===================================================================== *)

Module PercentRect.
Record t : Type := { leftPct : JsNumber; topPct : JsNumber; widthPct : JsNumber; heightPct : JsNumber }.
End PercentRect.

Module PixelRect.
Record t : Type := { left : JsNumber; top : JsNumber; width : JsNumber; height : JsNumber }.
End PixelRect.

(** [FieldValue = string | boolean | null]. *)
Inductive FieldValue : Type :=
| FVString (s : string)
| FVBool (b : bool)
| FVNull.

(** [Boolean(v)] on a field value. *)
Definition Boolean (v : FieldValue) : bool :=
  match v with
  | FVString s => negb (String.eqb s EmptyString)
  | FVBool b => b
  | FVNull => false
  end.

Module PdfField.
Record t : Type := {
  name : string;
  type : string;
  coordinates : list JsNumber;
  signatureCoordinates : option (list JsNumber);
  value : FieldValue;
  page : JsNumber;
  isMemo : option bool;
  isDate : option bool;
  relativeCoordinates : option PercentRect.t;
  scaledCoordinates : option PixelRect.t;
  metadata : option JsValue;
}.

(** The spread [{ ...f, value }]. *)
Definition with_value (f : t) (v : FieldValue) : t :=
  {| name := name f; type := type f; coordinates := coordinates f;
     signatureCoordinates := signatureCoordinates f; value := v; page := page f;
     isMemo := isMemo f; isDate := isDate f;
     relativeCoordinates := relativeCoordinates f;
     scaledCoordinates := scaledCoordinates f; metadata := metadata f |}.

(** The spread [{ ...f, scaledCoordinates: scaled }]. *)
Definition with_scaledCoordinates (f : t) (scaled : PixelRect.t) : t :=
  {| name := name f; type := type f; coordinates := coordinates f;
     signatureCoordinates := signatureCoordinates f; value := value f; page := page f;
     isMemo := isMemo f; isDate := isDate f;
     relativeCoordinates := relativeCoordinates f;
     scaledCoordinates := Some scaled; metadata := metadata f |}.
End PdfField.

Module OpenPdfInstanceRequest.
Record t : Type := { fileName : string; sheetId : JsNumber; pdfFolder : string; tag : option string }.
End OpenPdfInstanceRequest.

Module OpenPdfInstanceResult.
Record t : Type := {
  localPath : string;
  extractedFields : list PdfField.t;
  template : list PdfField.t;
}.
End OpenPdfInstanceResult.

(** [ViewportMeta], which is also the shape of the controller's viewport. *)
Module Viewport.
Record t : Type := { width : JsNumber; height : JsNumber; scale : JsNumber; rotation : option JsNumber }.
End Viewport.

(* ===================================================================== *)
(** * src/contracts: the ports the controller calls                       *)
(* ===================================================================== *)

(** The arguments of the writer port. *)
Module WriteTextArgs.
Record t : Type := { localPdfPath : string; field : PdfField.t; value : string }.
End WriteTextArgs.

Module WriteCheckboxArgs.
Record t : Type := { localPdfPath : string; field : PdfField.t; value : bool }.
End WriteCheckboxArgs.

Inductive SignatureMode : Type := single | all.

Module WriteSignatureArgs.
Record t : Type := {
  localPdfPath : string;
  signatureBase64 : string;
  mode : SignatureMode;
  targetFieldName : option string;
}.
End WriteSignatureArgs.

Module ClearFormArgs.
Record t : Type := { localPdfPath : string; fields : list PdfField.t }.
End ClearFormArgs.

(** A port is an interface without a body in the repository.  Each is a
    record of functions; the ports that keep state or do I/O act on a world
    [W] that the controller never inspects, and an awaited call that may
    reject returns a [result]. *)
Module PdfRendererPort.
Record t : Type := {
  parseInboundMessage : string -> option RendererInboundMessage;
  serializeCommand : RendererOutboundCommand -> string;
}.
End PdfRendererPort.

Module CoordinateTransformPort.
Record t : Type := {
  toPixelRect : PercentRect.t -> Viewport.t -> result PixelRect.t;
}.
End CoordinateTransformPort.

Module PdfFieldWriterPort.
Record t (W : Type) : Type := {
  writeText : WriteTextArgs.t -> W -> result unit * W;
  writeCheckbox : WriteCheckboxArgs.t -> W -> result unit * W;
  writeSignature : WriteSignatureArgs.t -> W -> result unit * W;
  clearForm : ClearFormArgs.t -> W -> result unit * W;
}.
Arguments writeText {W}.
Arguments writeCheckbox {W}.
Arguments writeSignature {W}.
Arguments clearForm {W}.
End PdfFieldWriterPort.

Module PdfInstanceManagerPort.
Record t (W : Type) : Type := {
  open : OpenPdfInstanceRequest.t -> W -> result OpenPdfInstanceResult.t * W;
}.
Arguments open {W}.
End PdfInstanceManagerPort.

Module TemplateStorePort.
Record t (W : Type) : Type := {
  putTemplate : string -> list PdfField.t -> W -> W;
}.
Arguments putTemplate {W}.
End TemplateStorePort.

Module OverlayGatePort.
Record t (W : Type) : Type := {
  markTick : string -> W -> W;
  markRenderDone : W -> W;
  canShowOverlays : W -> bool;
  maskOverlays : string -> W -> W;
  requestUnmask : string -> W -> W;
}.
Arguments markTick {W}.
Arguments markRenderDone {W}.
Arguments canShowOverlays {W}.
Arguments maskOverlays {W}.
Arguments requestUnmask {W}.
End OverlayGatePort.

(** [AttachedDocEditorDeps].  [fieldExtractor] is never called by the
    controller and [clock], [onSnapshot], [onLog] and [onError] are observed
    through the event history below.  [readPdfAsBase64] is the controller's
    private reader, whose body the repository redacts: it stands with the
    ports as a parameter, and [readPdfAsBase64_published] is the body the
    repository ships. *)
Record AttachedDocEditorDeps (W : Type) : Type := {
  renderer : PdfRendererPort.t;
  fieldWriter : PdfFieldWriterPort.t W;
  instanceManager : PdfInstanceManagerPort.t W;
  templateStore : TemplateStorePort.t W;
  coordTransform : CoordinateTransformPort.t;
  overlayGate : OverlayGatePort.t W;
  readPdfAsBase64 : string -> W -> result string * W;
}.
Arguments renderer {W}.
Arguments fieldWriter {W}.
Arguments instanceManager {W}.
Arguments templateStore {W}.
Arguments coordTransform {W}.
Arguments overlayGate {W}.
Arguments readPdfAsBase64 {W}.

Definition readPdfAsBase64_published {W : Type} (_localPath : string) (w : W)
  : result string * W :=
  (Err "REDACTED: readPdfAsBase64(localPath) is private implementation", w).

(* ===================================================================== *)
(** * src/application/AttachedDocEditorController.ts                      *)
(* ===================================================================== *)

Module Controller.

(** An attached transport is known by its identity; what it is sent is
    recorded in the history. *)
Definition RendererTransport : Type := nat.

Module Snapshot.
Record t : Type := {
  fileName : option string;
  localPath : option string;
  pageNumber : JsNumber;
  scale : JsNumber;
  rendererReady : bool;
  overlaysVisible : bool;
  isDirty : bool;
  fields : list PdfField.t;
  selectedFieldName : option string;
  viewport : option Viewport.t;
  status : option string;
}.
End Snapshot.

(** The private fields of the class. *)
Record State : Type := {
  transport : option RendererTransport;
  fileName : option string;
  localPath : option string;
  pageNumber : JsNumber;
  scale : JsNumber;
  rendererReady : bool;
  overlaysVisible : bool;
  isDirty : bool;
  fields : list PdfField.t;
  selectedFieldName : option string;
  viewport : option Viewport.t;
  status : option string;
}.

Definition initial : State :=
  {| transport := None; fileName := None; localPath := None;
     pageNumber := JFin 1; scale := JFin 1;
     rendererReady := false; overlaysVisible := false; isDirty := false;
     fields := []; selectedFieldName := None; viewport := None; status := None |}.

(** Assignments [this.x = v]. *)
Definition set_transport (v : option RendererTransport) (s : State) : State :=
  {| transport := v; fileName := fileName s; localPath := localPath s;
     pageNumber := pageNumber s; scale := scale s; rendererReady := rendererReady s;
     overlaysVisible := overlaysVisible s; isDirty := isDirty s; fields := fields s;
     selectedFieldName := selectedFieldName s; viewport := viewport s; status := status s |}.

Definition set_fileName (v : option string) (s : State) : State :=
  {| transport := transport s; fileName := v; localPath := localPath s;
     pageNumber := pageNumber s; scale := scale s; rendererReady := rendererReady s;
     overlaysVisible := overlaysVisible s; isDirty := isDirty s; fields := fields s;
     selectedFieldName := selectedFieldName s; viewport := viewport s; status := status s |}.

Definition set_localPath (v : option string) (s : State) : State :=
  {| transport := transport s; fileName := fileName s; localPath := v;
     pageNumber := pageNumber s; scale := scale s; rendererReady := rendererReady s;
     overlaysVisible := overlaysVisible s; isDirty := isDirty s; fields := fields s;
     selectedFieldName := selectedFieldName s; viewport := viewport s; status := status s |}.

Definition set_pageNumber (v : JsNumber) (s : State) : State :=
  {| transport := transport s; fileName := fileName s; localPath := localPath s;
     pageNumber := v; scale := scale s; rendererReady := rendererReady s;
     overlaysVisible := overlaysVisible s; isDirty := isDirty s; fields := fields s;
     selectedFieldName := selectedFieldName s; viewport := viewport s; status := status s |}.

Definition set_scale (v : JsNumber) (s : State) : State :=
  {| transport := transport s; fileName := fileName s; localPath := localPath s;
     pageNumber := pageNumber s; scale := v; rendererReady := rendererReady s;
     overlaysVisible := overlaysVisible s; isDirty := isDirty s; fields := fields s;
     selectedFieldName := selectedFieldName s; viewport := viewport s; status := status s |}.

Definition set_rendererReady (v : bool) (s : State) : State :=
  {| transport := transport s; fileName := fileName s; localPath := localPath s;
     pageNumber := pageNumber s; scale := scale s; rendererReady := v;
     overlaysVisible := overlaysVisible s; isDirty := isDirty s; fields := fields s;
     selectedFieldName := selectedFieldName s; viewport := viewport s; status := status s |}.

Definition set_overlaysVisible (v : bool) (s : State) : State :=
  {| transport := transport s; fileName := fileName s; localPath := localPath s;
     pageNumber := pageNumber s; scale := scale s; rendererReady := rendererReady s;
     overlaysVisible := v; isDirty := isDirty s; fields := fields s;
     selectedFieldName := selectedFieldName s; viewport := viewport s; status := status s |}.

Definition set_isDirty (v : bool) (s : State) : State :=
  {| transport := transport s; fileName := fileName s; localPath := localPath s;
     pageNumber := pageNumber s; scale := scale s; rendererReady := rendererReady s;
     overlaysVisible := overlaysVisible s; isDirty := v; fields := fields s;
     selectedFieldName := selectedFieldName s; viewport := viewport s; status := status s |}.

Definition set_fields (v : list PdfField.t) (s : State) : State :=
  {| transport := transport s; fileName := fileName s; localPath := localPath s;
     pageNumber := pageNumber s; scale := scale s; rendererReady := rendererReady s;
     overlaysVisible := overlaysVisible s; isDirty := isDirty s; fields := v;
     selectedFieldName := selectedFieldName s; viewport := viewport s; status := status s |}.

Definition set_selectedFieldName (v : option string) (s : State) : State :=
  {| transport := transport s; fileName := fileName s; localPath := localPath s;
     pageNumber := pageNumber s; scale := scale s; rendererReady := rendererReady s;
     overlaysVisible := overlaysVisible s; isDirty := isDirty s; fields := fields s;
     selectedFieldName := v; viewport := viewport s; status := status s |}.

Definition set_viewport (v : option Viewport.t) (s : State) : State :=
  {| transport := transport s; fileName := fileName s; localPath := localPath s;
     pageNumber := pageNumber s; scale := scale s; rendererReady := rendererReady s;
     overlaysVisible := overlaysVisible s; isDirty := isDirty s; fields := fields s;
     selectedFieldName := selectedFieldName s; viewport := v; status := status s |}.

Definition set_status (v : option string) (s : State) : State :=
  {| transport := transport s; fileName := fileName s; localPath := localPath s;
     pageNumber := pageNumber s; scale := scale s; rendererReady := rendererReady s;
     overlaysVisible := overlaysVisible s; isDirty := isDirty s; fields := fields s;
     selectedFieldName := selectedFieldName s; viewport := viewport s; status := v |}.

Definition getSnapshot (s : State) : Snapshot.t :=
  {| Snapshot.fileName := fileName s;
     Snapshot.localPath := localPath s;
     Snapshot.pageNumber := pageNumber s;
     Snapshot.scale := scale s;
     Snapshot.rendererReady := rendererReady s;
     Snapshot.overlaysVisible := overlaysVisible s;
     Snapshot.isDirty := isDirty s;
     Snapshot.fields := fields s;
     Snapshot.selectedFieldName := selectedFieldName s;
     Snapshot.viewport := viewport s;
     Snapshot.status := status s |}.

(** ** What the controller does to its surroundings

    Every call out of the controller is recorded, newest first. *)

Inductive GateCall : Type :=
| MarkTick (reason : string)
| MarkRenderDone
| MaskOverlays (reason : string)
| RequestUnmask (reason : string).

Inductive WriterCall : Type :=
| WriteText (args : WriteTextArgs.t)
| WriteCheckbox (args : WriteCheckboxArgs.t)
| WriteSignature (args : WriteSignatureArgs.t)
| ClearForm (args : ClearFormArgs.t).

(** The one closure handed to [clock.setTimeout]. *)
Inductive TimerCallback : Type := refresh_complete.

Inductive Event : Type :=
| SnapshotEmitted (s : Snapshot.t)
| Logged (msg : string) (extra : list (string * JsValue))
| ErrorReported (err : Exn)
| Posted (t : RendererTransport) (cmd : RendererOutboundCommand) (payload : string)
| TimerSet (fn : TimerCallback) (delayMs : Z)
| GateCalled (c : GateCall)
| WriterCalled (c : WriterCall)
| InstanceOpenCalled (req : OpenPdfInstanceRequest.t)
| TemplatePut (fileName : string) (template : list PdfField.t)
| Base64ReadCalled (localPath : string).

Section WithDeps.
Context {W : Type}.
Variable deps : AttachedDocEditorDeps W.

(** The controller, the world behind the ports, and the history. *)
Record Env : Type := { this : State; world : W; history : list Event }.

(** A method body: it runs from an [Env], returns or throws, and leaves an
    [Env]; what it wrote before a throw stays written. *)
Definition M (A : Type) : Type := Env -> result A * Env.

Definition ret {A} (a : A) : M A := fun e => (Ok a, e).

Definition bind {A C} (m : M A) (k : A -> M C) : M C :=
  fun e =>
    match m e with
    | (Ok a, e') => k a e'
    | (Err x, e') => (Err x, e')
    end.

Definition throw {A} (x : Exn) : M A := fun e => (Err x, e).

Definition try_catch {A} (body : M A) (handler : Exn -> M A) : M A :=
  fun e =>
    match body e with
    | (Ok a, e') => (Ok a, e')
    | (Err x, e') => handler x e'
    end.

Definition read : M State := fun e => (Ok (this e), e).

Definition assign (f : State -> State) : M unit :=
  fun e => (Ok tt, {| this := f (this e); world := world e; history := history e |}).

Definition record (ev : Event) : M unit :=
  fun e => (Ok tt, {| this := this e; world := world e; history := ev :: history e |}).

(** A port call that returns nothing. *)
Definition tell (f : W -> W) : M unit :=
  fun e => (Ok tt, {| this := this e; world := f (world e); history := history e |}).

(** A port call that is awaited. *)
Definition await {A} (f : W -> result A * W) : M A :=
  fun e =>
    let (r, w) := f (world e) in
    (r, {| this := this e; world := w; history := history e |}).

Definition ask {A} (f : W -> A) : M A := fun e => (Ok (f (world e)), e).

(** A promise that is not awaited at once: the call runs to its outcome,
    which is kept instead of thrown. *)
Definition promise {A} (m : M A) : M (result A) :=
  fun e => let (r, e') := m e in (Ok r, e').

(** The rest of a call made with [void]: it goes on if the promise was
    fulfilled, and a rejection is left unhandled. *)
Definition unhandled {A} (p : result A) (k : A -> M unit) : M unit :=
  match p with
  | Ok a => fun e => let (_, e') := k a e in (Ok tt, e')
  | Err _ => ret tt
  end.

Notation "x <- m ;; k" := (bind m (fun x => k))
  (at level 61, m at next level, right associativity).
Notation "m ;; k" := (bind m (fun _ => k))
  (at level 61, right associativity).

(** ** Internal helpers *)

Definition emit : M unit :=
  c <- read ;; record (SnapshotEmitted (getSnapshot c)).

Definition onLog (msg : string) (extra : list (string * JsValue)) : M unit :=
  record (Logged msg extra).

Definition onError (err : Exn) : M unit := record (ErrorReported err).

Definition gate_markTick (reason : string) : M unit :=
  record (GateCalled (MarkTick reason)) ;; tell (OverlayGatePort.markTick (overlayGate deps) reason).

Definition gate_markRenderDone : M unit :=
  record (GateCalled MarkRenderDone) ;; tell (OverlayGatePort.markRenderDone (overlayGate deps)).

Definition gate_maskOverlays (reason : string) : M unit :=
  record (GateCalled (MaskOverlays reason)) ;; tell (OverlayGatePort.maskOverlays (overlayGate deps) reason).

Definition gate_requestUnmask (reason : string) : M unit :=
  record (GateCalled (RequestUnmask reason)) ;; tell (OverlayGatePort.requestUnmask (overlayGate deps) reason).

Definition gate_canShowOverlays : M bool := ask (OverlayGatePort.canShowOverlays (overlayGate deps)).

Definition mustFindField (name : string) : M PdfField.t :=
  c <- read ;;
  match find (fun x => String.eqb (PdfField.name x) name) (fields c) with
  | Some f => ret f
  | None => throw ("Field not found: " ++ name)%string
  end.

(** The callback of [fields.map] in [recomputeScaledRectsIfPossible]. *)
Definition rescale (vp : Viewport.t) (f : PdfField.t) : result PdfField.t :=
  match PdfField.relativeCoordinates f with
  | None => Ok f
  | Some rect =>
      match CoordinateTransformPort.toPixelRect (coordTransform deps) rect
              {| Viewport.width := Viewport.width vp;
                 Viewport.height := Viewport.height vp;
                 Viewport.scale := Viewport.scale vp;
                 Viewport.rotation := Viewport.rotation vp |} with
      | Ok scaled => Ok (PdfField.with_scaledCoordinates f scaled)
      | Err x => Err x
      end
  end.

(** [Array.prototype.map] with a callback that may throw: the first throw
    ends the traversal and no array is produced. *)
Fixpoint map_throwing {A C} (f : A -> result C) (l : list A) : result (list C) :=
  match l with
  | [] => Ok []
  | a :: rest =>
      match f a with
      | Err x => Err x
      | Ok c =>
          match map_throwing f rest with
          | Err x => Err x
          | Ok cs => Ok (c :: cs)
          end
      end
  end.

Definition recomputeScaledRectsIfPossible : M unit :=
  c <- read ;;
  match viewport c with
  | None => ret tt
  | Some vp =>
      match map_throwing (rescale vp) (fields c) with
      | Ok fs => assign (set_fields fs)
      | Err x => throw x
      end
  end.

(** [layerValues]: the [Map] is a list of bindings, the latest [set] first. *)
Definition map_get (k : string) (m : list (string * PdfField.t)) : option PdfField.t :=
  option_map snd (find (fun kv => String.eqb (fst kv) k) m).

Definition layerValues (template extracted : list PdfField.t) : list PdfField.t :=
  let map := fold_left (fun m f => (PdfField.name f, f) :: m) extracted [] in
  List.map (fun t =>
              match map_get (PdfField.name t) map with
              | Some found => PdfField.with_value t (PdfField.value found)
              | None => t
              end) template.

Definition normalizeTemplate (fs : list PdfField.t) : M (list PdfField.t) := ret fs.

Definition maskOverlaysForNavigation (reason : string) : M unit :=
  gate_maskOverlays reason ;;
  assign (set_overlaysVisible false).

Definition sendRendererCommand (cmd : RendererOutboundCommand) : M unit :=
  c <- read ;;
  match transport c with
  | None => ret tt
  | Some t =>
      let payload := PdfRendererPort.serializeCommand (renderer deps) cmd in
      record (Posted t cmd payload)
  end.

(** [loadIntoRenderer] up to its [await]: the three guards, then the read.
    [None] is an early return. *)
Definition loadIntoRenderer_begin : M (option string) :=
  c <- read ;;
  match transport c with
  | None => ret None
  | Some _ =>
      if negb (rendererReady c) then ret None else
      match truthy_string (localPath c) with
      | None => ret None
      | Some path =>
          record (Base64ReadCalled path) ;;
          base64 <- await (readPdfAsBase64 deps path) ;;
          ret (Some base64)
      end
  end.

(** [loadIntoRenderer] after its [await]. *)
Definition loadIntoRenderer_resume (read_result : option string) : M unit :=
  match read_result with
  | None => ret tt
  | Some base64 => sendRendererCommand (LOAD_PDF_BASE64 base64)
  end.

Definition loadIntoRenderer : M unit :=
  r <- loadIntoRenderer_begin ;; loadIntoRenderer_resume r.

(** The closure scheduled by [refreshRendererAfterSave]. *)
Definition run_timer (fn : TimerCallback) : M unit :=
  match fn with
  | refresh_complete =>
      gate_requestUnmask "refresh-complete" ;;
      v <- gate_canShowOverlays ;;
      assign (set_overlaysVisible v) ;;
      emit
  end.

Definition refreshRendererAfterSave : M unit :=
  gate_maskOverlays "refresh-after-save" ;;
  assign (set_overlaysVisible false) ;;
  emit ;;
  record (TimerSet refresh_complete 0).

Definition onCheckboxDomainRulesApplied (_fieldName : string) (_value : bool) : M unit :=
  ret tt.

(** ** Public methods *)

(** The constructor. *)
Definition construct (w : W) : Env :=
  snd (emit {| this := initial; world := w; history := [] |}).

Definition attachRendererTransport (t : RendererTransport) : M unit :=
  assign (set_transport (Some t)).

Definition openDocument (req : OpenPdfInstanceRequest.t) : M unit :=
  try_catch
    (assign (set_status (Some "Opening document…")) ;;
     emit ;;
     record (InstanceOpenCalled req) ;;
     res <- await (PdfInstanceManagerPort.open (instanceManager deps) req) ;;
     assign (set_fileName (Some (OpenPdfInstanceRequest.fileName req))) ;;
     assign (set_localPath (Some (OpenPdfInstanceResult.localPath res))) ;;
     record (TemplatePut (OpenPdfInstanceRequest.fileName req)
                         (OpenPdfInstanceResult.template res)) ;;
     tell (TemplateStorePort.putTemplate (templateStore deps) (OpenPdfInstanceRequest.fileName req)
                       (OpenPdfInstanceResult.template res)) ;;
     assign (set_fields (layerValues (OpenPdfInstanceResult.template res)
                                     (OpenPdfInstanceResult.extractedFields res))) ;;
     c <- read ;;
     fs <- normalizeTemplate (fields c) ;;
     assign (set_fields fs) ;;
     recomputeScaledRectsIfPossible ;;
     loadIntoRenderer ;;
     assign (set_status (Some "Ready")) ;;
     emit)
    (fun err =>
       assign (set_status (Some "Error opening document")) ;;
       emit ;;
       onError err ;;
       throw err).

Definition onRendererMessage (raw : string) : M unit :=
  match PdfRendererPort.parseInboundMessage (renderer deps) raw with
  | None => ret tt
  | Some msg =>
      onLog "Renderer message" [("msgType", VStr (msg_type msg))] ;;
      gate_markTick (msg_type msg) ;;
      match msg with
      | READY =>
          assign (set_rendererReady true) ;;
          p <- promise loadIntoRenderer_begin ;;
          emit ;;
          unhandled p loadIntoRenderer_resume
      | PDF_DIMENSIONS width height scale rotation =>
          assign (set_viewport (Some {| Viewport.width := width;
                                        Viewport.height := height;
                                        Viewport.scale := scale;
                                        Viewport.rotation := rotation |})) ;;
          gate_maskOverlays "dims-changed" ;;
          assign (set_overlaysVisible false) ;;
          recomputeScaledRectsIfPossible ;;
          emit
      | RENDER_DONE =>
          gate_markRenderDone ;;
          gate_requestUnmask "render-done" ;;
          v <- gate_canShowOverlays ;;
          assign (set_overlaysVisible v) ;;
          emit
      | READY_FOR_OVERLAYS =>
          gate_requestUnmask "renderer-ready-for-overlays" ;;
          v <- gate_canShowOverlays ;;
          assign (set_overlaysVisible v) ;;
          emit
      | DEBUG_PAGE_COUNT pages =>
          onLog "Renderer page count" [("pages", VNum pages)]
      end
  end.

Definition setPage (n : JsNumber) : M unit :=
  assign (set_pageNumber (Math_max (JFin 1) (Math_floor n))) ;;
  maskOverlaysForNavigation "page-change" ;;
  c <- read ;;
  sendRendererCommand (SET_PAGE (pageNumber c)) ;;
  emit.

Definition setScale (x : JsNumber) : M unit :=
  assign (set_scale (Math_max (JFin 0.1) x)) ;;
  maskOverlaysForNavigation "scale-change" ;;
  c <- read ;;
  sendRendererCommand (SET_SCALE (scale c)) ;;
  emit.

Definition selectField (fieldName : option string) : M unit :=
  assign (set_selectedFieldName fieldName) ;;
  emit.

Definition getSelectedField (s : State) : option PdfField.t :=
  match truthy_string (selectedFieldName s) with
  | None => None
  | Some selected => find (fun f => String.eqb (PdfField.name f) selected) (fields s)
  end.

Definition saveText (fieldName value : string) : M unit :=
  try_catch
    (field <- mustFindField fieldName ;;
     c <- read ;;
     match truthy_string (localPath c) with
     | None => throw "No localPath"
     | Some path =>
         assign (set_status (Some "Saving text…")) ;;
         assign (set_isDirty true) ;;
         maskOverlaysForNavigation "save-text" ;;
         emit ;;
         let args := {| WriteTextArgs.localPdfPath := path;
                        WriteTextArgs.field := field;
                        WriteTextArgs.value := value |} in
         record (WriterCalled (WriteText args)) ;;
         await (PdfFieldWriterPort.writeText (fieldWriter deps) args) ;;
         c' <- read ;;
         assign (set_fields
                   (List.map (fun f => if String.eqb (PdfField.name f) fieldName
                                       then PdfField.with_value f (FVString value)
                                       else f) (fields c'))) ;;
         refreshRendererAfterSave ;;
         assign (set_status (Some "Saved")) ;;
         emit
     end)
    (fun err =>
       assign (set_status (Some "Error saving text")) ;;
       emit ;;
       onError err ;;
       throw err).

Definition toggleCheckbox (fieldName : string) (nextValue : option bool) : M unit :=
  try_catch
    (field <- mustFindField fieldName ;;
     c <- read ;;
     match truthy_string (localPath c) with
     | None => throw "No localPath"
     | Some path =>
         let value :=
           match nextValue with
           | Some b => b
           | None => negb (Boolean (PdfField.value field))
           end in
         assign (set_status (Some "Saving checkbox…")) ;;
         assign (set_isDirty true) ;;
         maskOverlaysForNavigation "save-checkbox" ;;
         emit ;;
         let args := {| WriteCheckboxArgs.localPdfPath := path;
                        WriteCheckboxArgs.field := field;
                        WriteCheckboxArgs.value := value |} in
         record (WriterCalled (WriteCheckbox args)) ;;
         await (PdfFieldWriterPort.writeCheckbox (fieldWriter deps) args) ;;
         c' <- read ;;
         assign (set_fields
                   (List.map (fun f => if String.eqb (PdfField.name f) fieldName
                                       then PdfField.with_value f (FVBool value)
                                       else f) (fields c'))) ;;
         onCheckboxDomainRulesApplied fieldName value ;;
         refreshRendererAfterSave ;;
         assign (set_status (Some "Saved")) ;;
         emit
     end)
    (fun err =>
       assign (set_status (Some "Error saving checkbox")) ;;
       emit ;;
       onError err ;;
       throw err).

(** The arguments of [saveSignature]. *)
Record SaveSignatureArgs : Type := {
  signatureBase64 : string;
  mode : SignatureMode;
  targetFieldName : option string;
}.

(** The update of the field values after the signature was written. *)
Definition mark_signed (args : SaveSignatureArgs) (fs : list PdfField.t) : list PdfField.t :=
  match mode args, truthy_string (targetFieldName args) with
  | single, Some target =>
      List.map (fun f => if String.eqb (PdfField.name f) target
                         then PdfField.with_value f (FVString "SIGNED")
                         else f) fs
  | single, None => fs
  | all, _ =>
      List.map (fun f => if String.eqb (PdfField.type f) "PDFSignature"
                         then PdfField.with_value f (FVString "SIGNED")
                         else f) fs
  end.

Definition saveSignature (args : SaveSignatureArgs) : M unit :=
  try_catch
    (c <- read ;;
     match truthy_string (localPath c) with
     | None => throw "No localPath"
     | Some path =>
         assign (set_status (Some "Saving signature…")) ;;
         assign (set_isDirty true) ;;
         maskOverlaysForNavigation "save-signature" ;;
         emit ;;
         let wargs := {| WriteSignatureArgs.localPdfPath := path;
                         WriteSignatureArgs.signatureBase64 := signatureBase64 args;
                         WriteSignatureArgs.mode := mode args;
                         WriteSignatureArgs.targetFieldName := targetFieldName args |} in
         record (WriterCalled (WriteSignature wargs)) ;;
         await (PdfFieldWriterPort.writeSignature (fieldWriter deps) wargs) ;;
         c' <- read ;;
         assign (set_fields (mark_signed args (fields c'))) ;;
         refreshRendererAfterSave ;;
         assign (set_status (Some "Saved")) ;;
         emit
     end)
    (fun err =>
       assign (set_status (Some "Error saving signature")) ;;
       emit ;;
       onError err ;;
       throw err).

(** The callback of [fields.map] in [clearForm]. *)
Definition cleared (f : PdfField.t) : PdfField.t :=
  if String.eqb (PdfField.type f) "PDFCheckBox" then PdfField.with_value f (FVBool false)
  else if String.eqb (PdfField.type f) "PDFTextField" then PdfField.with_value f (FVString EmptyString)
  else if String.eqb (PdfField.type f) "PDFSignature" then PdfField.with_value f FVNull
  else PdfField.with_value f FVNull.

Definition clearForm : M unit :=
  try_catch
    (c <- read ;;
     match truthy_string (localPath c) with
     | None => throw "No localPath"
     | Some path =>
         assign (set_status (Some "Clearing form…")) ;;
         assign (set_isDirty true) ;;
         maskOverlaysForNavigation "clear-form" ;;
         emit ;;
         c1 <- read ;;
         let args := {| ClearFormArgs.localPdfPath := path;
                        ClearFormArgs.fields := fields c1 |} in
         record (WriterCalled (ClearForm args)) ;;
         await (PdfFieldWriterPort.clearForm (fieldWriter deps) args) ;;
         c' <- read ;;
         assign (set_fields (List.map cleared (fields c'))) ;;
         refreshRendererAfterSave ;;
         assign (set_status (Some "Cleared")) ;;
         emit
     end)
    (fun err =>
       assign (set_status (Some "Error clearing form")) ;;
       emit ;;
       onError err ;;
       throw err).

Record CloseAnswer : Type := { okToClose : bool; reason : option string }.

Definition requestClose (s : State) : CloseAnswer :=
  if isDirty s
  then {| okToClose := false; reason := Some "Unsaved changes present" |}
  else {| okToClose := true; reason := None |}.

(** ** The calls a session receives

    The user interface and the renderer call the public methods one after
    the other, and the clock runs a callback it was given; a caller sees a
    thrown exception and goes on. *)

Inductive Call : Type :=
| AttachRendererTransport (t : RendererTransport)
| OpenDocument (req : OpenPdfInstanceRequest.t)
| OnRendererMessage (raw : string)
| SetPage (n : JsNumber)
| SetScale (x : JsNumber)
| SelectField (fieldName : option string)
| SaveText (fieldName value : string)
| ToggleCheckbox (fieldName : string) (nextValue : option bool)
| SaveSignature (args : SaveSignatureArgs)
| ClearFormCall
| TimerFires (fn : TimerCallback).

Definition perform (c : Call) : M unit :=
  match c with
  | AttachRendererTransport t => attachRendererTransport t
  | OpenDocument req => openDocument req
  | OnRendererMessage raw => onRendererMessage raw
  | SetPage n => setPage n
  | SetScale x => setScale x
  | SelectField fieldName => selectField fieldName
  | SaveText fieldName value => saveText fieldName value
  | ToggleCheckbox fieldName nextValue => toggleCheckbox fieldName nextValue
  | SaveSignature args => saveSignature args
  | ClearFormCall => clearForm
  | TimerFires fn => run_timer fn
  end.

Definition after (c : Call) (e : Env) : Env := snd (perform c e).

(** The overlay flag as a snapshot taken now reports it. *)
Definition overlays_shown (e : Env) : bool :=
  Snapshot.overlaysVisible (getSnapshot (this e)).

(** Whether an edit call gets past its guards, to its masking step. *)
Definition reaches_mask (c : Call) (s : State) : bool :=
  match c with
  | SaveText fieldName _ | ToggleCheckbox fieldName _ =>
      match find (fun x => String.eqb (PdfField.name x) fieldName) (fields s),
            truthy_string (localPath s) with
      | Some _, Some _ => true
      | _, _ => false
      end
  | SaveSignature _ | ClearFormCall =>
      match truthy_string (localPath s) with
      | Some _ => true
      | None => false
      end
  | _ => false
  end.

(** The calls that ask the gate: RENDER_DONE, READY_FOR_OVERLAYS, and the
    refresh-complete timer. *)
Definition asks_gate (c : Call) : bool :=
  match c with
  | OnRendererMessage raw =>
      match PdfRendererPort.parseInboundMessage (renderer deps) raw with
      | Some RENDER_DONE | Some READY_FOR_OVERLAYS => true
      | _ => false
      end
  | TimerFires refresh_complete => true
  | _ => false
  end.

Definition outcome (c : Call) (e : Env) : result unit := fst (perform c e).

Definition run (calls : list Call) (e : Env) : Env :=
  fold_left (fun e c => after c e) calls e.

End WithDeps.

Arguments Env W : clear implicits.
Arguments M W A : clear implicits.

(** The same session with another transport slot. *)
Definition with_transport {W} (t : option RendererTransport) (e : Env W) : Env W :=
  {| this := set_transport t (this e); world := world e; history := history e |}.

Definition snapshots {W} (e : Env W) : list Snapshot.t :=
  rev (flat_map (fun ev => match ev with SnapshotEmitted s => [s] | _ => [] end)
                (history e)).

(** The commands posted so far, oldest first. *)
Definition posted {W} (e : Env W) : list RendererOutboundCommand :=
  rev (flat_map (fun ev => match ev with Posted _ cmd _ => [cmd] | _ => [] end)
                (history e)).

(** The paths [readPdfAsBase64] was called with so far, oldest first. *)
Definition reads {W} (e : Env W) : list string :=
  rev (flat_map (fun ev => match ev with Base64ReadCalled path => [path] | _ => [] end)
                (history e)).

Definition writer_calls {W} (e : Env W) : list WriterCall :=
  rev (flat_map (fun ev => match ev with WriterCalled c => [c] | _ => [] end)
                (history e)).

End Controller.

Import Controller.

(* ===================================================================== *)
(** * Stand-ins for the ports                                             *)
(* ===================================================================== *)

Module Sample.

(** The world is the gate's answer.  This gate has no quiet window: it
    allows overlays from an unmask request until the next mask. *)
Definition gate : OverlayGatePort.t bool :=
  {| OverlayGatePort.markTick := fun _ w => w;
     OverlayGatePort.markRenderDone := fun w => w;
     OverlayGatePort.canShowOverlays := fun w => w;
     OverlayGatePort.maskOverlays := fun _ _ => false;
     OverlayGatePort.requestUnmask := fun _ _ => true |}.

Definition box : PercentRect.t :=
  {| PercentRect.leftPct := JFin 0.1; PercentRect.topPct := JFin 0.2;
     PercentRect.widthPct := JFin 0.5; PercentRect.heightPct := JFin 0.05 |}.

Definition field (name type : string) (value : FieldValue) : PdfField.t :=
  {| PdfField.name := name; PdfField.type := type;
     PdfField.coordinates := [JFin 10; JFin 20; JFin 110; JFin 40];
     PdfField.signatureCoordinates := None;
     PdfField.value := value; PdfField.page := JFin 0;
     PdfField.isMemo := None; PdfField.isDate := None;
     PdfField.relativeCoordinates := Some box;
     PdfField.scaledCoordinates := None;
     PdfField.metadata := None |}.

Definition fullName : PdfField.t := field "fullName" "PDFTextField" (FVString "x").
Definition agree : PdfField.t := field "agree" "PDFCheckBox" (FVBool true).
Definition sign : PdfField.t := field "sign" "PDFSignature" (FVString "SIGNED").

Definition request : OpenPdfInstanceRequest.t :=
  {| OpenPdfInstanceRequest.fileName := "form.pdf";
     OpenPdfInstanceRequest.sheetId := JFin 7;
     OpenPdfInstanceRequest.pdfFolder := "forms";
     OpenPdfInstanceRequest.tag := None |}.

Definition opened : OpenPdfInstanceResult.t :=
  {| OpenPdfInstanceResult.localPath := "work/form.pdf";
     OpenPdfInstanceResult.extractedFields := [];
     OpenPdfInstanceResult.template := [fullName; agree; sign] |}.

Definition manager : PdfInstanceManagerPort.t bool :=
  {| PdfInstanceManagerPort.open := fun _ w => (Ok opened, w) |}.

Definition failing_manager : PdfInstanceManagerPort.t bool :=
  {| PdfInstanceManagerPort.open := fun _ w => (Err "instance unavailable", w) |}.

Definition store : TemplateStorePort.t bool :=
  {| TemplateStorePort.putTemplate := fun _ _ w => w |}.

Definition writer : PdfFieldWriterPort.t bool :=
  {| PdfFieldWriterPort.writeText := fun _ w => (Ok tt, w);
     PdfFieldWriterPort.writeCheckbox := fun _ w => (Ok tt, w);
     PdfFieldWriterPort.writeSignature := fun _ w => (Ok tt, w);
     PdfFieldWriterPort.clearForm := fun _ w => (Ok tt, w) |}.

(** A transform whose pixel box shows the viewport it was computed against. *)
Definition echo_transform : CoordinateTransformPort.t :=
  {| CoordinateTransformPort.toPixelRect := fun _ vp =>
       Ok {| PixelRect.left := Viewport.width vp; PixelRect.top := Viewport.height vp;
             PixelRect.width := Viewport.scale vp; PixelRect.height := Viewport.scale vp |} |}.

(** A transform that throws on a viewport whose width is NaN. *)
Definition strict_transform : CoordinateTransformPort.t :=
  {| CoordinateTransformPort.toPixelRect := fun rect vp =>
       if isNaN (Viewport.width vp) then Err "unusable viewport"
       else CoordinateTransformPort.toPixelRect echo_transform rect vp |}.

Definition bridge : PdfRendererPort.t :=
  {| PdfRendererPort.parseInboundMessage := parseRendererInboundMessage no_coercion;
     PdfRendererPort.serializeCommand := fun cmd =>
       match cmd with
       | LOAD_PDF_BASE64 _ => "LOAD_PDF_BASE64"
       | SET_PAGE _ => "SET_PAGE"
       | SET_SCALE _ => "SET_SCALE"
       end |}.

(** The ports around the controller as the repository ships it. *)
Definition deps : AttachedDocEditorDeps bool :=
  {| renderer := bridge; fieldWriter := writer; instanceManager := manager;
     templateStore := store; coordTransform := echo_transform;
     overlayGate := gate; readPdfAsBase64 := readPdfAsBase64_published |}.

Definition with_transform (t : CoordinateTransformPort.t) (d : AttachedDocEditorDeps bool) :=
  {| renderer := renderer d; fieldWriter := fieldWriter d;
     instanceManager := instanceManager d; templateStore := templateStore d;
     coordTransform := t; overlayGate := overlayGate d;
     readPdfAsBase64 := readPdfAsBase64 d |}.

Definition with_manager (m : PdfInstanceManagerPort.t bool) (d : AttachedDocEditorDeps bool) :=
  {| renderer := renderer d; fieldWriter := fieldWriter d;
     instanceManager := m; templateStore := templateStore d;
     coordTransform := coordTransform d; overlayGate := overlayGate d;
     readPdfAsBase64 := readPdfAsBase64 d |}.

Definition start : Env bool := construct false.

Definition ready_msg : string := lit "{'type':'READY'}".
Definition render_done_msg : string := lit "{'type':'RENDER_DONE'}".
Definition dims_msg : string :=
  lit "{'type':'PDF_DIMENSIONS','width':800,'height':600,'scale':1.5}".
Definition dims_without_width_msg : string :=
  lit "{'type':'PDF_DIMENSIONS','height':600,'scale':1.5}".

End Sample.

(* ===================================================================== *)
(** * Vocabulary of the statements                                        *)
(* ===================================================================== *)

(** The [case] labels of [parseRendererInboundMessage]. *)
Definition recognized_types : list string :=
  ["READY"; "RENDER_DONE"; "READY_FOR_OVERLAYS"; "PDF_DIMENSIONS"; "DEBUG_PAGE_COUNT"].

(** A platform whose object coercion throws, as ToPrimitive does on an
    object whose [valueOf] and [toString] are not callable. *)
Definition throwing_coercion : Coercions :=
  {| StringToNumber := fun _ => JNaN;
     ObjectToNumber := fun _ => Err "TypeError: Cannot convert object to primitive value" |}.

(** The viewport a PDF_DIMENSIONS event reports. *)
Definition reported (w h s : JsNumber) (r : option JsNumber) : Viewport.t :=
  {| Viewport.width := w; Viewport.height := h;
     Viewport.scale := s; Viewport.rotation := r |}.

Definition NaN_viewport : Viewport.t := reported JNaN (JFin 600) (JFin (Qred 1.5)) None.

Definition NaN_box : PixelRect.t :=
  {| PixelRect.left := JNaN; PixelRect.top := JFin 600;
     PixelRect.width := JFin (Qred 1.5); PixelRect.height := JFin (Qred 1.5) |}.

Definition strict_deps : AttachedDocEditorDeps bool :=
  Sample.with_transform Sample.strict_transform Sample.deps.

Definition old_box : PixelRect.t :=
  {| PixelRect.left := JFin 800; PixelRect.top := JFin 600;
     PixelRect.width := JFin (Qred 1.5); PixelRect.height := JFin (Qred 1.5) |}.

(** The field set [openDocument] assigns first. *)
Definition layered (res : OpenPdfInstanceResult.t) : list PdfField.t :=
  layerValues (OpenPdfInstanceResult.template res)
              (OpenPdfInstanceResult.extractedFields res).


(** The predicate of [fields.find] in [mustFindField]. *)
Definition named (fieldName : string) (x : PdfField.t) : bool :=
  String.eqb (PdfField.name x) fieldName.

(** What [saveSignature] hands to the writer. *)
Definition signature_args_written (path : string) (args : SaveSignatureArgs)
  : WriteSignatureArgs.t :=
  {| WriteSignatureArgs.localPdfPath := path;
     WriteSignatureArgs.signatureBase64 := signatureBase64 args;
     WriteSignatureArgs.mode := mode args;
     WriteSignatureArgs.targetFieldName := targetFieldName args |}.

Definition stray_signature : SaveSignatureArgs :=
  {| signatureBase64 := "iVBORw0KGgo="; mode := single; targetFieldName := Some "nope" |}.

(** What [clearForm] is to do to one field: the value goes by the type, and
    nothing else changes. *)
Definition reset_of (f f' : PdfField.t) : Prop :=
  PdfField.name f' = PdfField.name f
  /\ PdfField.type f' = PdfField.type f
  /\ PdfField.page f' = PdfField.page f
  /\ PdfField.coordinates f' = PdfField.coordinates f
  /\ PdfField.signatureCoordinates f' = PdfField.signatureCoordinates f
  /\ PdfField.relativeCoordinates f' = PdfField.relativeCoordinates f
  /\ PdfField.scaledCoordinates f' = PdfField.scaledCoordinates f
  /\ (PdfField.type f = "PDFTextField" -> PdfField.value f' = FVString EmptyString)
  /\ (PdfField.type f = "PDFCheckBox" -> PdfField.value f' = FVBool false)
  /\ (PdfField.type f = "PDFSignature" -> PdfField.value f' = FVNull)
  /\ (PdfField.type f <> "PDFTextField" -> PdfField.type f <> "PDFCheckBox" ->
      PdfField.value f' = FVNull).

Definition untargeted_signature : SaveSignatureArgs :=
  {| signatureBase64 := "iVBORw0KGgo="; mode := single; targetFieldName := None |}.

Definition attaches (c : Call) : bool :=
  match c with AttachRendererTransport _ => true | _ => false end.

(* ===================================================================== *)
(** * Vocabulary of the further statements                                *)
(* ===================================================================== *)

(** The timers set so far, oldest first. *)
Definition timers {W} (e : Env W) : list TimerCallback :=
  rev (flat_map (fun ev => match ev with TimerSet fn _ => [fn] | _ => [] end)
                (history e)).

(** The calls made to the overlay gate so far, oldest first. *)
Definition gate_calls {W} (e : Env W) : list GateCall :=
  rev (flat_map (fun ev => match ev with GateCalled c => [c] | _ => [] end)
                (history e)).

(** The snapshot the user interface received last. *)
Definition last_snapshot {W} (e : Env W) : option Snapshot.t :=
  hd_error (flat_map (fun ev => match ev with SnapshotEmitted s => [s] | _ => [] end)
                     (history e)).

(** The user interface holds the current state. *)
Definition in_sync {W} (e : Env W) : Prop :=
  last_snapshot e = Some (getSnapshot (this e)).

(** Two fields that differ at most in value and pixel box. *)
Definition same_layout (f f' : PdfField.t) : Prop :=
  PdfField.name f' = PdfField.name f
  /\ PdfField.type f' = PdfField.type f
  /\ PdfField.coordinates f' = PdfField.coordinates f
  /\ PdfField.signatureCoordinates f' = PdfField.signatureCoordinates f
  /\ PdfField.page f' = PdfField.page f
  /\ PdfField.isMemo f' = PdfField.isMemo f
  /\ PdfField.isDate f' = PdfField.isDate f
  /\ PdfField.relativeCoordinates f' = PdfField.relativeCoordinates f
  /\ PdfField.metadata f' = PdfField.metadata f.

(** The four edit calls. *)
Definition is_edit (c : Call) : bool :=
  match c with
  | SaveText _ _ | ToggleCheckbox _ _ | SaveSignature _ | ClearFormCall => true
  | _ => false
  end.

Definition opens (c : Call) : bool :=
  match c with OpenDocument _ => true | _ => false end.

(** The status each edit call leaves when it throws, and when it completes. *)
Definition error_status (c : Call) : option string :=
  match c with
  | SaveText _ _ => Some "Error saving text"
  | ToggleCheckbox _ _ => Some "Error saving checkbox"
  | SaveSignature _ => Some "Error saving signature"
  | ClearFormCall => Some "Error clearing form"
  | OpenDocument _ => Some "Error opening document"
  | _ => None
  end.

Definition done_status (c : Call) : option string :=
  match c with
  | SaveText _ _ | ToggleCheckbox _ _ | SaveSignature _ => Some "Saved"
  | ClearFormCall => Some "Cleared"
  | OpenDocument _ => Some "Ready"
  | _ => None
  end.

(** The update of one field by an edit aimed at the fields named
    [fieldName]. *)
Definition set_named (fieldName : string) (v : FieldValue) (f : PdfField.t) : PdfField.t :=
  if String.eqb (PdfField.name f) fieldName then PdfField.with_value f v else f.

Definition sign_fullName : SaveSignatureArgs :=
  {| signatureBase64 := "iVBORw0KGgo="; mode := single; targetFieldName := Some "fullName" |}.

Definition sign_all : SaveSignatureArgs :=
  {| signatureBase64 := "iVBORw0KGgo="; mode := all; targetFieldName := None |}.

(** The inbound messages without a payload. *)
Definition bare (m : RendererInboundMessage) : bool :=
  match m with
  | READY | RENDER_DONE | READY_FOR_OVERLAYS => true
  | _ => false
  end.

(** What a dimension report does to one field, given the viewport. *)
Definition rescaled_by (transform : CoordinateTransformPort.t) (vp : Viewport.t)
    (f f' : PdfField.t) : Prop :=
  same_layout f f'
  /\ PdfField.value f' = PdfField.value f
  /\ match PdfField.relativeCoordinates f with
     | None => PdfField.scaledCoordinates f' = PdfField.scaledCoordinates f
     | Some rect =>
         exists px, CoordinateTransformPort.toPixelRect transform rect vp = Ok px
                    /\ PdfField.scaledCoordinates f' = Some px
     end.

(** The command a call may post. *)
Definition may_post (c : Call) (cmd : RendererOutboundCommand) : Prop :=
  match c, cmd with
  | SetPage _, SET_PAGE _ => True
  | SetScale _, SET_SCALE _ => True
  | OpenDocument _, LOAD_PDF_BASE64 _ => True
  | OnRendererMessage _, LOAD_PDF_BASE64 _ => True
  | _, _ => False
  end.

(** The events a call added to the history, given the history before. *)
Definition posts_of (evs : list Event) : list (RendererTransport * RendererOutboundCommand) :=
  rev (flat_map (fun ev => match ev with Posted t cmd _ => [(t, cmd)] | _ => [] end) evs).

(** A field without relative coordinates that carries a pixel box. *)
Definition unplaced : PdfField.t :=
  {| PdfField.name := "note"; PdfField.type := "PDFTextField";
     PdfField.coordinates := [JFin 0; JFin 0; JFin 10; JFin 10];
     PdfField.signatureCoordinates := None;
     PdfField.value := FVNull; PdfField.page := JFin 0;
     PdfField.isMemo := None; PdfField.isDate := None;
     PdfField.relativeCoordinates := None;
     PdfField.scaledCoordinates := Some old_box;
     PdfField.metadata := None |}.


(** A stand-in for Number::toString that is right on whole numbers below
    ten to the twenty-first. *)
Definition whole_number_text : Formatting :=
  {| NumberToString := fun q => DecimalString.NilZero.string_of_int (Z.to_int (Qfloor q)) |}.

(** [number_value] after its sign: the integer part, the fraction and the
    exponent. *)
Definition number_body (neg : bool) (cs1 : list ascii) : option Q :=
  let (ip, cs2) := span_digits cs1 in
  match ip with
  | [] => None
  | _ =>
    if leading_zero ip then None else
    let frac :=
      match cs2 with
      | c :: r =>
          if Ascii.eqb c "."
          then let (fp, r') := span_digits r in
               match fp with [] => None | _ => Some (fp, r') end
          else Some ([], cs2)
      | [] => Some ([], [])
      end in
    match frac with
    | None => None
    | Some (fp, cs3) =>
      let expo :=
        match cs3 with
        | [] => Some 0%Z
        | c :: r =>
            if Ascii.eqb c "e" || Ascii.eqb c "E" then
              let (eneg, r1) :=
                match r with
                | s :: r' =>
                    if Ascii.eqb s "-" then (true, r')
                    else if Ascii.eqb s "+" then (false, r')
                    else (false, r)
                | [] => (false, r)
                end in
              let (ed, r2) := span_digits r1 in
              match ed, r2 with
              | _ :: _, [] =>
                  Some (if eneg then (- digits_value ed)%Z else digits_value ed)
              | _, _ => None
              end
            else None
        end in
      match expo with
      | None => None
      | Some e =>
        let m := digits_value (ip ++ fp) in
        let q := Qred (inject_Z m * Qpower (inject_Z 10) (e - Z.of_nat (length fp))) in
        Some (if neg then Qred (- q) else q)
      end
    end
  end.

(** The unmask requests made to the gate so far, oldest first. *)
Definition unmask_requests {W} (e : Env W) : list string :=
  rev (flat_map (fun ev => match ev with
                           | GateCalled (RequestUnmask reason) => [reason]
                           | _ => []
                           end) (history e)).

(* ===================================================================== *)
(** * Proof steps                                                         *)
(* ===================================================================== *)

(** Unfolding of the method bodies, leaving the ports, the list functions
    and the number functions folded. *)
Ltac reduce_m :=
  cbv beta iota zeta delta
    [bind ret throw try_catch read assign record tell await ask promise unhandled
     emit onLog onError gate_markTick gate_markRenderDone gate_maskOverlays
     gate_requestUnmask gate_canShowOverlays
     mustFindField recomputeScaledRectsIfPossible normalizeTemplate
     maskOverlaysForNavigation sendRendererCommand
     loadIntoRenderer_begin loadIntoRenderer_resume loadIntoRenderer run_timer
     refreshRendererAfterSave onCheckboxDomainRulesApplied
     attachRendererTransport openDocument onRendererMessage setPage setScale
     selectField saveText toggleCheckbox saveSignature clearForm
     perform after outcome overlays_shown getSnapshot with_transport
     Snapshot.overlaysVisible
     this world history fst snd negb
     transport fileName localPath pageNumber scale rendererReady overlaysVisible
     isDirty fields selectedFieldName viewport status
     set_transport set_fileName set_localPath set_pageNumber set_scale
     set_rendererReady set_overlaysVisible set_isDirty set_fields
     set_selectedFieldName set_viewport set_status] in *.

(** Case analysis on what a method body is waiting for: the outcome of a
    port call, a lookup, a guard. *)
Ltac case_port c := let r := fresh "r" in let w := fresh "w" in
  destruct c as [r w] eqn:?; destruct r.

Ltac case_m :=
  match goal with
  | |- context [PdfRendererPort.parseInboundMessage ?p ?raw] =>
      let m := fresh "msg" in
      destruct (PdfRendererPort.parseInboundMessage p raw) as [m|] eqn:?;
      [destruct m|]
  | |- context [PdfInstanceManagerPort.open ?p ?a ?w] =>
      case_port (PdfInstanceManagerPort.open p a w)
  | |- context [PdfFieldWriterPort.writeText ?p ?a ?w] =>
      case_port (PdfFieldWriterPort.writeText p a w)
  | |- context [PdfFieldWriterPort.writeCheckbox ?p ?a ?w] =>
      case_port (PdfFieldWriterPort.writeCheckbox p a w)
  | |- context [PdfFieldWriterPort.writeSignature ?p ?a ?w] =>
      case_port (PdfFieldWriterPort.writeSignature p a w)
  | |- context [PdfFieldWriterPort.clearForm ?p ?a ?w] =>
      case_port (PdfFieldWriterPort.clearForm p a w)
  | |- context [readPdfAsBase64 ?d ?a ?w] =>
      case_port (readPdfAsBase64 d a w)
  | |- context [map_throwing ?f ?l] => destruct (map_throwing f l) eqn:?
  | |- context [truthy_string ?o] => destruct (truthy_string o) eqn:?
  | |- context [@find PdfField.t ?f ?l] => destruct (@find PdfField.t f l) eqn:?
  | |- context [match ?c with Some _ => _ | None => _ end] => is_var c; destruct c
  | |- context [if ?c then _ else _] => is_var c; destruct c
  | |- context [match ?c with refresh_complete => _ end] => is_var c; destruct c
  end.

Ltac crunch := repeat (reduce_m; try case_m).

(* ===================================================================== *)
(** * The renderer protocol                                               *)
(* ===================================================================== *)

Example lit_quotes :
  list_ascii_of_string (lit "{'a':1}")
  = ["{"; ascii_of_N 34; "a"; ascii_of_N 34; ":"; "1"; "}"]%char.
Proof. reflexivity. Qed.

Example JSON_parse_nested :
  JSON_parse (lit " { 'a' : [1, -2.50e1, true, null, {}], 'b' : 'x\u0041\n' } ")
  = Ok (VObj [("a", VArr [VNum (JFin 1); VNum (JFin (-25)); VBool true; VNull; VObj []]);
              ("b", VStr (String "x" (String "A" (String (ascii_of_N 10) EmptyString))))]).
Proof. reflexivity. Qed.

Example JSON_parse_rejects :
  map JSON_parse [EmptyString; "{type:1}"; "[1,]"; "01"; "1."; "nul"; "[1 2]"; lit "{'a':1,}"; lit "'a"]
  = repeat (Err "SyntaxError") 9.
Proof. reflexivity. Qed.

Example duplicate_key_last_wins :
  bind_result (JSON_parse (lit "{'type':'READY','type':'BOGUS'}"))
              (fun data => Ok (get_property data "type"))
  = Ok (Some (VStr "BOGUS")).
Proof. reflexivity. Qed.

Lemma parse_try_unparseable B raw x :
  JSON_parse raw = Err x -> parse_try B raw = Err x.
Proof. intros H. unfold parse_try. rewrite H. reflexivity. Qed.

Lemma parse_try_no_string_type B raw data :
  JSON_parse raw = Ok data ->
  (forall ty, get_property data "type" <> Some (VStr ty)) ->
  parse_try B raw = Ok None.
Proof.
  intros H Hty. unfold parse_try. rewrite H. cbn [bind_result].
  destruct (truthy data); cbn [negb]; [|reflexivity].
  destruct (get_property data "type") as [[| | |ty| |]|]; try reflexivity.
  exfalso. apply (Hty ty). reflexivity.
Qed.

Lemma eqb_outside (ty k : string) (l : list string) :
  ~ In ty l -> In k l -> String.eqb ty k = false.
Proof.
  intros Hn Hk. apply String.eqb_neq. intros ->. exact (Hn Hk).
Qed.

Lemma parse_try_unrecognized B raw data ty :
  JSON_parse raw = Ok data ->
  get_property data "type" = Some (VStr ty) ->
  ~ In ty recognized_types ->
  parse_try B raw = Ok None.
Proof.
  intros H Hty Hn. unfold parse_try. rewrite H. cbn [bind_result].
  destruct (truthy data); cbn [negb]; [|reflexivity].
  rewrite Hty.
  rewrite !(eqb_outside ty _ recognized_types Hn) by (cbn; tauto).
  reflexivity.
Qed.

(** C7.  [parseRendererInboundMessage] never throws: an exception raised
    anywhere in its [try] block comes out as [null].  The literal READY
    message parses to the READY event, the literal PDF_DIMENSIONS message to
    a PDF_DIMENSIONS event of width 800, height 600, scale 1.5 and no
    rotation, and a text that is not JSON, a value without a string [type],
    or a [type] outside the five known ones (BOGUS for one) gives [null]. *)
Theorem parseRendererInboundMessage_contract (B : Coercions) :
  (forall raw x, parse_try B raw = Err x -> parseRendererInboundMessage B raw = None)
  /\ parseRendererInboundMessage B (lit "{'type':'READY'}") = Some READY
  /\ parseRendererInboundMessage B
       (lit "{'type':'PDF_DIMENSIONS','width':800,'height':600,'scale':1.5}")
     = Some (PDF_DIMENSIONS (JFin 800) (JFin 600) (JFin (Qred 1.5)) None)
  /\ parseRendererInboundMessage B (lit "{'type':'BOGUS'}") = None
  /\ (forall raw x, JSON_parse raw = Err x -> parseRendererInboundMessage B raw = None)
  /\ (forall raw data,
        JSON_parse raw = Ok data ->
        (forall ty, get_property data "type" <> Some (VStr ty)) ->
        parseRendererInboundMessage B raw = None)
  /\ (forall raw data ty,
        JSON_parse raw = Ok data ->
        get_property data "type" = Some (VStr ty) ->
        ~ In ty recognized_types ->
        parseRendererInboundMessage B raw = None).
Proof.
  repeat split.
  - intros raw x H. unfold parseRendererInboundMessage. rewrite H. reflexivity.
  - intros raw x H. unfold parseRendererInboundMessage.
    rewrite (parse_try_unparseable B raw x H). reflexivity.
  - intros raw data H Hty. unfold parseRendererInboundMessage.
    rewrite (parse_try_no_string_type B raw data H Hty). reflexivity.
  - intros raw data ty H Hty Hn. unfold parseRendererInboundMessage.
    rewrite (parse_try_unrecognized B raw data ty H Hty Hn). reflexivity.
Qed.

Lemma parseRendererInboundMessage_contract_witness :
  parseRendererInboundMessage throwing_coercion
    (lit "{'type':'PDF_DIMENSIONS','width':{'valueOf':1,'toString':1}}") = None
  /\ parseRendererInboundMessage no_coercion "{type:READY}" = None
  /\ parseRendererInboundMessage no_coercion (lit "['READY']") = None
  /\ parseRendererInboundMessage no_coercion (lit "{'type':'LOADED'}") = None.
Proof.
  split; [|split; [|split]].
  - apply (proj1 (parseRendererInboundMessage_contract throwing_coercion))
      with (x := "TypeError: Cannot convert object to primitive value").
    reflexivity.
  - apply (proj1 (proj2 (proj2 (proj2 (proj2
            (parseRendererInboundMessage_contract no_coercion))))))
      with (x := "SyntaxError").
    reflexivity.
  - apply (proj1 (proj2 (proj2 (proj2 (proj2 (proj2
            (parseRendererInboundMessage_contract no_coercion)))))))
      with (data := VArr [VStr "READY"]).
    + reflexivity.
    + intros ty H. discriminate H.
  - apply (proj2 (proj2 (proj2 (proj2 (proj2 (proj2
            (parseRendererInboundMessage_contract no_coercion)))))))
      with (data := VObj [("type", VStr "LOADED")]) (ty := "LOADED").
    + reflexivity.
    + reflexivity.
    + cbn. intros [H|[H|[H|[H|[H|[]]]]]]; discriminate H.
Defined.

(* ===================================================================== *)
(** * The controller                                                      *)
(* ===================================================================== *)

Section Overlays.
Context {W : Type} (deps : AttachedDocEditorDeps W).

Lemma openDocument_keeps_overlay_flag req (e : Env W) :
  overlays_shown (after deps (OpenDocument req) e) = overlays_shown e.
Proof.
  destruct e as [[t fn lp pn sc rr ov dirty fs sel vp st] w h].
  crunch; reflexivity.
Qed.

Lemma edit_masks c (e : Env W) :
  reaches_mask c (this e) = true -> overlays_shown (after deps c e) = false.
Proof.
  destruct e as [[t fn lp pn sc rr ov dirty fs sel vp st] w h].
  destruct c; cbn [reaches_mask this fields localPath]; try discriminate;
    crunch; intros; try reflexivity; try discriminate.
Qed.

Lemma overlay_flag_rises_at_gate_only c (e : Env W) :
  overlays_shown (after deps c e) = true ->
  overlays_shown e = true
  \/ (asks_gate deps c = true
      /\ OverlayGatePort.canShowOverlays (overlayGate deps) (world (after deps c e)) = true).
Proof.
  destruct e as [[t fn lp pn sc rr ov dirty fs sel vp st] w h].
  destruct c; unfold asks_gate; crunch; intros H;
    try discriminate H; try (left; exact H); right; split; try reflexivity; exact H.
Qed.

End Overlays.

(** C1, as the code has it.  The overlay flag reported by the snapshot is
    false after any PDF_DIMENSIONS event, after [setPage] and [setScale],
    after the masking step and at the end of any edit call that got past its
    guards; [openDocument] leaves the flag as it was; and no call makes the
    flag true except a RENDER_DONE or READY_FOR_OVERLAYS event or the
    refresh-complete timer, when the gate says overlays can show. *)
Theorem overlay_flag_masking {W : Type} (deps : AttachedDocEditorDeps W) (e : Env W) :
  (forall req, overlays_shown (after deps (OpenDocument req) e) = overlays_shown e)
  /\ (forall raw w h s r,
        PdfRendererPort.parseInboundMessage (renderer deps) raw
          = Some (PDF_DIMENSIONS w h s r) ->
        overlays_shown (after deps (OnRendererMessage raw) e) = false)
  /\ (forall n, overlays_shown (after deps (SetPage n) e) = false)
  /\ (forall x, overlays_shown (after deps (SetScale x) e) = false)
  /\ (forall reason,
        overlays_shown (snd (maskOverlaysForNavigation deps reason e)) = false)
  /\ (forall c, reaches_mask c (this e) = true ->
        overlays_shown (after deps c e) = false)
  /\ (forall c, overlays_shown (after deps c e) = true ->
        overlays_shown e = true
        \/ (asks_gate deps c = true
            /\ OverlayGatePort.canShowOverlays (overlayGate deps)
                 (world (after deps c e)) = true)).
Proof.
  split; [|split; [|split; [|split; [|split; [|split]]]]].
  - intros req. apply openDocument_keeps_overlay_flag.
  - intros raw w h s r Hp.
    destruct e as [[t fn lp pn sc rr ov dirty fs sel vp st] w0 h0].
    reduce_m. rewrite Hp. crunch; reflexivity.
  - intros n. destruct e as [[t fn lp pn sc rr ov dirty fs sel vp st] w0 h0].
    crunch; reflexivity.
  - intros x. destruct e as [[t fn lp pn sc rr ov dirty fs sel vp st] w0 h0].
    crunch; reflexivity.
  - intros reason. destruct e as [[t fn lp pn sc rr ov dirty fs sel vp st] w0 h0].
    reflexivity.
  - intros c. apply edit_masks.
  - intros c. apply overlay_flag_rises_at_gate_only.
Qed.

(** With overlays showing after RENDER_DONE: a dimension report and an edit
    hide them. *)
Lemma overlay_flag_masking_witness :
  let shown := run Sample.deps [OpenDocument Sample.request;
                                OnRendererMessage Sample.render_done_msg] Sample.start in
  overlays_shown shown = true
  /\ overlays_shown (after Sample.deps (OnRendererMessage Sample.dims_msg) shown) = false
  /\ overlays_shown (after Sample.deps (SaveText "fullName" "Jane Doe") shown) = false.
Proof.
  split; [reflexivity|split].
  - apply (proj1 (proj2 (overlay_flag_masking Sample.deps _)))
      with (w := JFin 800) (h := JFin 600) (s := JFin (Qred 1.5)) (r := None).
    reflexivity.
  - apply (proj1 (proj2 (proj2 (proj2 (proj2 (proj2
            (overlay_flag_masking Sample.deps _))))))).
    reflexivity.
Defined.

(** C1, as stated, fails at [openDocument]: with a document open and its
    overlays showing after a RENDER_DONE, a second [openDocument] completes
    with the flag still true. *)
Lemma openDocument_leaves_overlays_shown :
  let shown := run Sample.deps [OpenDocument Sample.request;
                                OnRendererMessage Sample.render_done_msg] Sample.start in
  overlays_shown shown = true
  /\ outcome Sample.deps (OpenDocument Sample.request) shown = Ok tt
  /\ overlays_shown (after Sample.deps (OpenDocument Sample.request) shown) = true.
Proof. repeat split; reflexivity. Qed.

(* --------------------------------------------------------------------- *)
(** ** Dimension reports                                                  *)
(* --------------------------------------------------------------------- *)

Lemma map_throwing_first_failure {A C} (f : A -> result C) (l : list A) a x :
  In a l -> f a = Err x -> exists x', map_throwing f l = Err x'.
Proof.
  induction l as [|b l IH]; intros Hin Hf; [destruct Hin|].
  cbn [map_throwing]. destruct (f b) as [c|y] eqn:Hb; [|eauto].
  destruct Hin as [->|Hin]; [congruence|].
  destruct (IH Hin Hf) as [x' Hx']. rewrite Hx'. eauto.
Qed.

Lemma map_throwing_failure_origin {A C} (f : A -> result C) (l : list A) x :
  map_throwing f l = Err x -> exists a, In a l /\ f a = Err x.
Proof.
  induction l as [|b l IH]; cbn [map_throwing]; [discriminate|].
  destruct (f b) as [c|y] eqn:Hb.
  - destruct (map_throwing f l) as [cs|y]; [discriminate|].
    intros H. injection H as ->. destruct (IH eq_refl) as [a [Hin Ha]].
    exists a. split; [right; exact Hin | exact Ha].
  - intros H. injection H as ->. exists b. split; [left; reflexivity | exact Hb].
Qed.

(** C2, as the code has it.  A PDF_DIMENSIONS event is adopted whatever its
    numbers are, NaN included: the viewport becomes the reported one, the
    overlays are masked, and when the transform returns for every field the
    fields are those recomputed against the reported viewport. *)
Theorem dimensions_adopted_as_reported {W : Type} (deps : AttachedDocEditorDeps W)
    (e : Env W) raw w h s r :
  PdfRendererPort.parseInboundMessage (renderer deps) raw
    = Some (PDF_DIMENSIONS w h s r) ->
  viewport (this (after deps (OnRendererMessage raw) e)) = Some (reported w h s r)
  /\ overlays_shown (after deps (OnRendererMessage raw) e) = false
  /\ (forall fs,
        map_throwing (rescale deps (reported w h s r)) (fields (this e)) = Ok fs ->
        outcome deps (OnRendererMessage raw) e = Ok tt
        /\ fields (this (after deps (OnRendererMessage raw) e)) = fs).
Proof.
  intros Hp. destruct e as [[t fn lp pn sc rr ov dirty fs0 sel vp st] w0 h0].
  unfold reported. reduce_m. rewrite Hp. reduce_m.
  destruct (map_throwing _ fs0) as [fs1|x] eqn:Hm; reduce_m.
  - split; [reflexivity|split; [reflexivity|]].
    intros fs Hfs. injection Hfs as <-. split; reflexivity.
  - split; [reflexivity|split; [reflexivity|]]. intros fs Hfs. discriminate Hfs.
Qed.

Lemma dimensions_adopted_as_reported_witness :
  let loaded := after Sample.deps (OpenDocument Sample.request) Sample.start in
  let e' := after Sample.deps (OnRendererMessage Sample.dims_without_width_msg) loaded in
  viewport (this e') = Some NaN_viewport
  /\ overlays_shown e' = false
  /\ (forall fs,
        map_throwing (rescale Sample.deps NaN_viewport) (fields (this loaded)) = Ok fs ->
        outcome Sample.deps (OnRendererMessage Sample.dims_without_width_msg) loaded = Ok tt
        /\ fields (this e') = fs).
Proof.
  apply (dimensions_adopted_as_reported Sample.deps).
  reflexivity.
Defined.

(** C2, as stated, fails: a PDF_DIMENSIONS message without [width] coerces
    to a NaN width, and the controller takes the NaN viewport and recomputes
    every field's box against it. *)
Lemma NaN_viewport_adopted :
  let loaded := after Sample.deps (OpenDocument Sample.request) Sample.start in
  let e' := after Sample.deps (OnRendererMessage Sample.dims_without_width_msg) loaded in
  parseRendererInboundMessage no_coercion Sample.dims_without_width_msg
    = Some (PDF_DIMENSIONS JNaN (JFin 600) (JFin (Qred 1.5)) None)
  /\ outcome Sample.deps (OnRendererMessage Sample.dims_without_width_msg) loaded = Ok tt
  /\ viewport (this e') = Some NaN_viewport
  /\ map PdfField.scaledCoordinates (fields (this e'))
     = [Some NaN_box; Some NaN_box; Some NaN_box].
Proof. repeat split; reflexivity. Qed.

(** C5, as the code has it.  When the transform throws for a field during a
    PDF_DIMENSIONS event, the exception leaves [onRendererMessage]: the
    viewport is already the reported one and the overlays are masked, but
    the field list is not assigned, so every field keeps the box it had, and
    no snapshot is emitted. *)
Theorem transform_failure_keeps_fields {W : Type} (deps : AttachedDocEditorDeps W)
    (e : Env W) raw w h s r f rect x :
  PdfRendererPort.parseInboundMessage (renderer deps) raw
    = Some (PDF_DIMENSIONS w h s r) ->
  In f (fields (this e)) ->
  PdfField.relativeCoordinates f = Some rect ->
  CoordinateTransformPort.toPixelRect (coordTransform deps) rect (reported w h s r) = Err x ->
  (exists x', outcome deps (OnRendererMessage raw) e = Err x')
  /\ fields (this (after deps (OnRendererMessage raw) e)) = fields (this e)
  /\ viewport (this (after deps (OnRendererMessage raw) e)) = Some (reported w h s r)
  /\ overlays_shown (after deps (OnRendererMessage raw) e) = false
  /\ snapshots (after deps (OnRendererMessage raw) e) = snapshots e.
Proof.
  intros Hp Hin Hrect Hthrow.
  assert (Hf : rescale deps (reported w h s r) f = Err x).
  { unfold rescale. rewrite Hrect. unfold reported in *. cbn. rewrite Hthrow. reflexivity. }
  destruct (map_throwing_first_failure _ _ _ _ Hin Hf) as [x' Hx'].
  destruct e as [[t fn lp pn sc rr ov dirty fs0 sel vp st] w0 h0].
  unfold snapshots, reported in *. reduce_m. rewrite Hp. reduce_m.
  cbn [fields this] in Hx'. rewrite Hx'. reduce_m.
  repeat split; try reflexivity. exists x'. reflexivity.
Qed.

Lemma transform_failure_keeps_fields_witness :
  let sized := run strict_deps [OpenDocument Sample.request;
                                OnRendererMessage Sample.dims_msg] Sample.start in
  let e' := after strict_deps (OnRendererMessage Sample.dims_without_width_msg) sized in
  (exists x', outcome strict_deps (OnRendererMessage Sample.dims_without_width_msg) sized = Err x')
  /\ fields (this e') = fields (this sized)
  /\ viewport (this e') = Some NaN_viewport
  /\ overlays_shown e' = false
  /\ snapshots e' = snapshots sized.
Proof.
  apply (transform_failure_keeps_fields strict_deps _ _ _ _ _ _
           (PdfField.with_scaledCoordinates Sample.fullName old_box)
           Sample.box "unusable viewport").
  - reflexivity.
  - left. reflexivity.
  - reflexivity.
  - reflexivity.
Defined.

(** C5, as stated, fails: boxes computed against an 800 by 600 viewport are
    still in place after a dimension report for which the transform threw,
    with the viewport already replaced. *)
Lemma stale_box_survives_transform_failure :
  let sized := run strict_deps [OpenDocument Sample.request;
                                OnRendererMessage Sample.dims_msg] Sample.start in
  let e' := after strict_deps (OnRendererMessage Sample.dims_without_width_msg) sized in
  viewport (this sized) = Some (reported (JFin 800) (JFin 600) (JFin (Qred 1.5)) None)
  /\ outcome strict_deps (OnRendererMessage Sample.dims_without_width_msg) sized
     = Err "unusable viewport"
  /\ viewport (this e') = Some NaN_viewport
  /\ map PdfField.scaledCoordinates (fields (this e'))
     = [Some old_box; Some old_box; Some old_box].
Proof. repeat split; reflexivity. Qed.

(* --------------------------------------------------------------------- *)
(** ** Opening a document                                                 *)
(* --------------------------------------------------------------------- *)

(** C3, as the code has it.  When the instance manager throws, the session is
    what it was but for the error status.  When the instance manager returns
    and a later step throws (the transform during the recomputation, or the
    reader during the load), the catch block only sets the status: the file
    name, the local path and the field set of the new document stay. *)
Theorem openDocument_failure {W : Type} (deps : AttachedDocEditorDeps W)
    (e : Env W) req :
  (forall x w',
      PdfInstanceManagerPort.open (instanceManager deps) req (world e) = (Err x, w') ->
      outcome deps (OpenDocument req) e = Err x
      /\ this (after deps (OpenDocument req) e)
         = set_status (Some "Error opening document") (this e))
  /\ (forall res w' x,
      PdfInstanceManagerPort.open (instanceManager deps) req (world e) = (Ok res, w') ->
      outcome deps (OpenDocument req) e = Err x ->
      let s' := this (after deps (OpenDocument req) e) in
      fileName s' = Some (OpenPdfInstanceRequest.fileName req)
      /\ localPath s' = Some (OpenPdfInstanceResult.localPath res)
      /\ status s' = Some "Error opening document"
      /\ (fields s' = layered res
          \/ exists vp, viewport (this e) = Some vp
                        /\ map_throwing (rescale deps vp) (layered res) = Ok (fields s'))).
Proof.
  destruct e as [[t fn lp pn sc rr ov dirty fs sel vp st] w h]. split.
  - intros x w' Ho. reduce_m. rewrite Ho. reduce_m. split; reflexivity.
  - intros res w' x Ho. unfold layered. reduce_m. rewrite Ho.
    crunch; intros Hx; try discriminate Hx;
      (split; [reflexivity|split; [reflexivity|split; [reflexivity|]]]);
      first [left; reflexivity | right; eexists; split; [reflexivity|eassumption]].
Qed.

Lemma openDocument_failure_witness :
  let ready := run Sample.deps [AttachRendererTransport 0;
                                OnRendererMessage Sample.ready_msg] Sample.start in
  let unavailable := Sample.with_manager Sample.failing_manager Sample.deps in
  (outcome unavailable (OpenDocument Sample.request) ready = Err "instance unavailable"
   /\ this (after unavailable (OpenDocument Sample.request) ready)
      = set_status (Some "Error opening document") (this ready))
  /\ (let s' := this (after Sample.deps (OpenDocument Sample.request) ready) in
      fileName s' = Some "form.pdf"
      /\ localPath s' = Some "work/form.pdf"
      /\ status s' = Some "Error opening document"
      /\ (fields s' = layered Sample.opened
          \/ exists vp, viewport (this ready) = Some vp
                        /\ map_throwing (rescale Sample.deps vp) (layered Sample.opened)
                           = Ok (fields s'))).
Proof.
  split.
  - apply (proj1 (openDocument_failure
                    (Sample.with_manager Sample.failing_manager Sample.deps) _
                    Sample.request)) with (w' := false).
    reflexivity.
  - apply (proj2 (openDocument_failure Sample.deps _ Sample.request))
      with (res := Sample.opened) (w' := false)
           (x := "REDACTED: readPdfAsBase64(localPath) is private implementation").
    + reflexivity.
    + reflexivity.
Defined.

(** C3, as stated, fails: with a transport attached and the renderer ready,
    the awaited load throws in the published reader, and the failed
    [openDocument] leaves the new file name, local path and three fields in
    a session that had none. *)
Lemma openDocument_failure_leaves_partial_session :
  let ready := run Sample.deps [AttachRendererTransport 0;
                                OnRendererMessage Sample.ready_msg] Sample.start in
  let s' := this (after Sample.deps (OpenDocument Sample.request) ready) in
  (fileName (this ready) = None /\ localPath (this ready) = None
   /\ fields (this ready) = [])
  /\ outcome Sample.deps (OpenDocument Sample.request) ready
     = Err "REDACTED: readPdfAsBase64(localPath) is private implementation"
  /\ fileName s' = Some "form.pdf"
  /\ localPath s' = Some "work/form.pdf"
  /\ fields s' = [Sample.fullName; Sample.agree; Sample.sign]
  /\ s' <> set_status (Some "Error opening document") (this ready).
Proof.
  repeat split; try reflexivity. intros H. discriminate H.
Qed.

(* --------------------------------------------------------------------- *)
(** ** READY and the load command                                         *)
(* --------------------------------------------------------------------- *)





(** The same run, evaluated: two READY events after the open, the reader
    called once for each, nothing posted. *)
Example READY_reruns_published_load_step :
  let loaded := run Sample.deps [AttachRendererTransport 0;
                                 OpenDocument Sample.request;
                                 OnRendererMessage Sample.ready_msg] Sample.start in
  reads loaded = ["work/form.pdf"]
  /\ reads (after Sample.deps (OnRendererMessage Sample.ready_msg) loaded)
     = ["work/form.pdf"; "work/form.pdf"]
  /\ posted (after Sample.deps (OnRendererMessage Sample.ready_msg) loaded) = [].
Proof. repeat split; reflexivity. Qed.

(* --------------------------------------------------------------------- *)
(** ** Edits                                                              *)
(* --------------------------------------------------------------------- *)

Lemma map_unknown_name (g : PdfField.t -> PdfField.t) fieldName (l : list PdfField.t) :
  find (named fieldName) l = None ->
  map (fun f => if String.eqb (PdfField.name f) fieldName then g f else f) l = l.
Proof.
  unfold named. induction l as [|a l IH]; cbn [find map]; [reflexivity|].
  destruct (String.eqb (PdfField.name a) fieldName); [discriminate|].
  intros H. rewrite (IH H). reflexivity.
Qed.

Lemma mark_signed_unknown_target args (l : list PdfField.t) fieldName :
  mode args = single ->
  targetFieldName args = Some fieldName ->
  find (named fieldName) l = None ->
  mark_signed args l = l.
Proof.
  intros Hm Ht Hf. unfold mark_signed. rewrite Hm, Ht. cbn [truthy_string].
  destruct (String.eqb fieldName EmptyString); [reflexivity|].
  apply map_unknown_name. exact Hf.
Qed.

(** C6, as the code has it.  [saveText] and [toggleCheckbox] on a name that
    no field has throw the field-not-found error without calling the writer
    and without touching the fields, the dirty flag or the world.
    [saveSignature] does not look its target up: with mode single and a
    target that no field has, it marks the session dirty, hands the name to
    the writer, and, when the writer returns, completes with the fields as
    they were. *)
Theorem unknown_field_edit {W : Type} (deps : AttachedDocEditorDeps W)
    (e : Env W) fieldName :
  find (named fieldName) (fields (this e)) = None ->
  (forall value,
      let e' := after deps (SaveText fieldName value) e in
      outcome deps (SaveText fieldName value) e
        = Err ("Field not found: " ++ fieldName)%string
      /\ writer_calls e' = writer_calls e
      /\ fields (this e') = fields (this e)
      /\ isDirty (this e') = isDirty (this e)
      /\ world e' = world e)
  /\ (forall nextValue,
      let e' := after deps (ToggleCheckbox fieldName nextValue) e in
      outcome deps (ToggleCheckbox fieldName nextValue) e
        = Err ("Field not found: " ++ fieldName)%string
      /\ writer_calls e' = writer_calls e
      /\ fields (this e') = fields (this e)
      /\ isDirty (this e') = isDirty (this e)
      /\ world e' = world e)
  /\ (forall args path,
      mode args = single ->
      targetFieldName args = Some fieldName ->
      truthy_string (localPath (this e)) = Some path ->
      let e' := after deps (SaveSignature args) e in
      writer_calls e'
        = writer_calls e ++ [WriteSignature (signature_args_written path args)]
      /\ isDirty (this e') = true
      /\ overlays_shown e' = false
      /\ (forall w',
            PdfFieldWriterPort.writeSignature (fieldWriter deps)
              (signature_args_written path args)
              (OverlayGatePort.maskOverlays (overlayGate deps) "save-signature" (world e))
            = (Ok tt, w') ->
            outcome deps (SaveSignature args) e = Ok tt
            /\ fields (this e') = fields (this e))).
Proof.
  intros Hf. destruct e as [[t fn lp pn sc rr ov dirty fs sel vp st] w h].
  cbn [this fields] in Hf. unfold named in Hf.
  split; [|split].
  - intros value. unfold writer_calls. reduce_m. rewrite Hf. reduce_m.
    repeat split; reflexivity.
  - intros nextValue. unfold writer_calls. reduce_m. rewrite Hf. reduce_m.
    repeat split; reflexivity.
  - intros args path Hm Ht Hpath. cbn [this localPath] in Hpath.
    unfold writer_calls, signature_args_written. reduce_m. rewrite Hpath. reduce_m.
    destruct (PdfFieldWriterPort.writeSignature _ _ _) as [[[]|x] w1] eqn:Hw; reduce_m.
    + split; [reflexivity|split; [reflexivity|split; [reflexivity|]]]. intros w' _.
      split; [reflexivity|]. apply (mark_signed_unknown_target args fs fieldName Hm Ht Hf).
    + split; [reflexivity|split; [reflexivity|split; [reflexivity|]]].
      intros w' H. discriminate H.
Qed.

Lemma unknown_field_edit_witness :
  let loaded := after Sample.deps (OpenDocument Sample.request) Sample.start in
  (outcome Sample.deps (SaveText "nope" "Jane Doe") loaded = Err "Field not found: nope"
   /\ writer_calls (after Sample.deps (SaveText "nope" "Jane Doe") loaded) = writer_calls loaded
   /\ fields (this (after Sample.deps (SaveText "nope" "Jane Doe") loaded)) = fields (this loaded)
   /\ isDirty (this (after Sample.deps (SaveText "nope" "Jane Doe") loaded)) = isDirty (this loaded)
   /\ world (after Sample.deps (SaveText "nope" "Jane Doe") loaded) = world loaded)
  /\ isDirty (this (after Sample.deps (SaveSignature stray_signature) loaded)) = true.
Proof.
  intros loaded.
  assert (Hf : find (named "nope") (fields (this loaded)) = None) by reflexivity.
  split.
  - exact (proj1 (unknown_field_edit Sample.deps loaded "nope" Hf) "Jane Doe").
  - exact (proj1 (proj2 (proj2 (proj2 (unknown_field_edit Sample.deps loaded "nope" Hf))
                          stray_signature "work/form.pdf" eq_refl eq_refl eq_refl))).
Defined.

(** C6, as stated, fails at [saveSignature]: with mode single and a target
    that no field has, the call completes, the writer has been called and
    the session has become dirty. *)
Lemma saveSignature_unknown_target_is_written :
  let loaded := after Sample.deps (OpenDocument Sample.request) Sample.start in
  let e' := after Sample.deps (SaveSignature stray_signature) loaded in
  find (named "nope") (fields (this loaded)) = None
  /\ isDirty (this loaded) = false
  /\ outcome Sample.deps (SaveSignature stray_signature) loaded = Ok tt
  /\ writer_calls e'
     = [WriteSignature (signature_args_written "work/form.pdf" stray_signature)]
  /\ isDirty (this e') = true.
Proof. repeat split; reflexivity. Qed.

Lemma cleared_keeps (f : PdfField.t) (v : FieldValue) :
  let f' := PdfField.with_value f v in
  PdfField.name f' = PdfField.name f
  /\ PdfField.type f' = PdfField.type f
  /\ PdfField.page f' = PdfField.page f
  /\ PdfField.coordinates f' = PdfField.coordinates f
  /\ PdfField.signatureCoordinates f' = PdfField.signatureCoordinates f
  /\ PdfField.relativeCoordinates f' = PdfField.relativeCoordinates f
  /\ PdfField.scaledCoordinates f' = PdfField.scaledCoordinates f
  /\ PdfField.value f' = v.
Proof. repeat split; reflexivity. Qed.

Lemma cleared_reset_of f : reset_of f (cleared f).
Proof.
  unfold reset_of, cleared.
  destruct (String.eqb (PdfField.type f) "PDFCheckBox") eqn:Hc.
  { apply String.eqb_eq in Hc.
    destruct (cleared_keeps f (FVBool false)) as (?&?&?&?&?&?&?&Hv).
    repeat (split; [assumption|]). rewrite Hc.
    repeat split; intros; try discriminate; try assumption; congruence. }
  apply String.eqb_neq in Hc.
  destruct (String.eqb (PdfField.type f) "PDFTextField") eqn:Ht.
  { apply String.eqb_eq in Ht.
    destruct (cleared_keeps f (FVString EmptyString)) as (?&?&?&?&?&?&?&Hv).
    repeat (split; [assumption|]). rewrite Ht.
    repeat split; intros; try discriminate; try assumption; congruence. }
  apply String.eqb_neq in Ht.
  assert (Hn : reset_of f (PdfField.with_value f FVNull)).
  { destruct (cleared_keeps f FVNull) as (?&?&?&?&?&?&?&Hv).
    unfold reset_of. repeat (split; [assumption|]).
    repeat split; intros; try assumption; congruence. }
  destruct (String.eqb (PdfField.type f) "PDFSignature"); exact Hn.
Qed.

Lemma map_cleared_reset_of (l : list PdfField.t) : Forall2 reset_of l (map cleared l).
Proof.
  induction l as [|f l IH]; cbn [map]; constructor; auto using cleared_reset_of.
Qed.

(** C8.  After a [clearForm] that completes, the field list is the old one
    with each field reset: text fields to the empty string, checkboxes to
    false, signatures and every other type to null, with name, type, page
    and boxes as they were. *)
Theorem clearForm_resets_values {W : Type} (deps : AttachedDocEditorDeps W) (e : Env W) :
  outcome deps ClearFormCall e = Ok tt ->
  fields (this (after deps ClearFormCall e)) = map cleared (fields (this e))
  /\ Forall2 reset_of (fields (this e)) (fields (this (after deps ClearFormCall e))).
Proof.
  intros Hok.
  assert (H : fields (this (after deps ClearFormCall e)) = map cleared (fields (this e))).
  { revert Hok. destruct e as [[t fn lp pn sc rr ov dirty fs sel vp st] w h].
    crunch; intros Hok; try discriminate Hok; reflexivity. }
  split; [exact H|]. rewrite H. apply map_cleared_reset_of.
Qed.

(** The session of the specification: a text field holding x, a checked
    checkbox and a signed signature field. *)
Lemma clearForm_resets_values_witness :
  let loaded := after Sample.deps (OpenDocument Sample.request) Sample.start in
  map PdfField.value (fields (this loaded))
    = [FVString "x"; FVBool true; FVString "SIGNED"]
  /\ map PdfField.value (fields (this (after Sample.deps ClearFormCall loaded)))
     = [FVString EmptyString; FVBool false; FVNull]
  /\ Forall2 reset_of (fields (this loaded))
                      (fields (this (after Sample.deps ClearFormCall loaded))).
Proof.
  intros loaded.
  destruct (clearForm_resets_values Sample.deps loaded eq_refl) as [Hf Hr].
  split; [reflexivity|split; [rewrite Hf; reflexivity|exact Hr]].
Defined.

Lemma mark_signed_untargeted args (l : list PdfField.t) :
  mode args = single ->
  truthy_string (targetFieldName args) = None ->
  mark_signed args l = l.
Proof. intros Hm Ht. unfold mark_signed. rewrite Hm, Ht. reflexivity. Qed.

(** C9.  A [saveSignature] with mode single and no target (absent or empty)
    that completes has called the writer, set the dirty flag and masked the
    overlays, and has left the field list as it was. *)
Theorem saveSignature_single_without_target {W : Type} (deps : AttachedDocEditorDeps W)
    (e : Env W) args :
  mode args = single ->
  truthy_string (targetFieldName args) = None ->
  outcome deps (SaveSignature args) e = Ok tt ->
  let e' := after deps (SaveSignature args) e in
  fields (this e') = fields (this e)
  /\ (exists path,
        truthy_string (localPath (this e)) = Some path
        /\ writer_calls e'
           = writer_calls e ++ [WriteSignature (signature_args_written path args)])
  /\ isDirty (this e') = true
  /\ overlays_shown e' = false
  /\ In (GateCalled (MaskOverlays "save-signature")) (history e').
Proof.
  intros Hm Ht. destruct e as [[t fn lp pn sc rr ov dirty fs sel vp st] w h].
  unfold writer_calls, signature_args_written.
  crunch; intros Hok; try discriminate Hok.
  split; [apply (mark_signed_untargeted args fs Hm Ht)|].
  split; [|split; [reflexivity|split; [reflexivity|]]].
  - eexists. split; reflexivity.
  - cbn. tauto.
Qed.

Lemma saveSignature_single_without_target_witness :
  let loaded := after Sample.deps (OpenDocument Sample.request) Sample.start in
  let e' := after Sample.deps (SaveSignature untargeted_signature) loaded in
  map PdfField.value (fields (this e')) = [FVString "x"; FVBool true; FVString "SIGNED"]
  /\ isDirty (this e') = true
  /\ overlays_shown e' = false.
Proof.
  intros loaded e'.
  destruct (saveSignature_single_without_target Sample.deps loaded untargeted_signature
              eq_refl eq_refl eq_refl) as [Hf [_ [Hd [Ho _]]]].
  split; [|split; [exact Hd|exact Ho]].
  unfold e'. rewrite Hf. reflexivity.
Defined.

(* --------------------------------------------------------------------- *)
(** ** Before a transport is attached                                     *)
(* --------------------------------------------------------------------- *)

Section NoTransport.
Context {W : Type} (deps : AttachedDocEditorDeps W).

Lemma no_transport_no_post c (e : Env W) :
  transport (this e) = None -> attaches c = false ->
  posted (after deps c e) = posted e /\ transport (this (after deps c e)) = None.
Proof.
  destruct e as [[t fn lp pn sc rr ov dirty fs sel vp st] w h].
  cbn [this transport]. intros -> Hc. unfold posted.
  destruct c; try discriminate Hc; crunch; split; reflexivity.
Qed.

Lemma no_transport_no_worse c t (e : Env W) :
  transport (this e) = None -> attaches c = false ->
  outcome deps c (with_transport (Some t) e) = Ok tt ->
  outcome deps c e = Ok tt
  /\ this (after deps c e)
     = set_transport None (this (after deps c (with_transport (Some t) e))).
Proof.
  destruct e as [[t0 fn lp pn sc rr ov dirty fs sel vp st] w h].
  cbn [this transport]. intros -> Hc.
  destruct c; try discriminate Hc; crunch; intros Hok;
    try discriminate Hok; split; reflexivity.
Qed.

End NoTransport.

(** C10.  With no transport attached, [sendRendererCommand] and
    [loadIntoRenderer] return at once without a change; no call other than
    [attachRendererTransport] posts a command; [setPage] and [setScale]
    complete with the clamped number stored and the overlays masked; and a
    call that completes with a transport attached completes without one, and
    leaves the same controller state. *)
Theorem no_transport_drops_commands {W : Type} (deps : AttachedDocEditorDeps W)
    (e : Env W) :
  transport (this e) = None ->
  (forall cmd, sendRendererCommand deps cmd e = (Ok tt, e))
  /\ loadIntoRenderer deps e = (Ok tt, e)
  /\ (forall c, attaches c = false ->
        posted (after deps c e) = posted e
        /\ transport (this (after deps c e)) = None)
  /\ (forall n,
        outcome deps (SetPage n) e = Ok tt
        /\ pageNumber (this (after deps (SetPage n) e)) = Math_max (JFin 1) (Math_floor n)
        /\ overlays_shown (after deps (SetPage n) e) = false)
  /\ (forall x,
        outcome deps (SetScale x) e = Ok tt
        /\ scale (this (after deps (SetScale x) e)) = Math_max (JFin 0.1) x
        /\ overlays_shown (after deps (SetScale x) e) = false)
  /\ (forall c t, attaches c = false ->
        outcome deps c (with_transport (Some t) e) = Ok tt ->
        outcome deps c e = Ok tt
        /\ this (after deps c e)
           = set_transport None (this (after deps c (with_transport (Some t) e)))).
Proof.
  intros Ht. split; [|split; [|split; [|split; [|split]]]].
  - intros cmd. destruct e as [[t fn lp pn sc rr ov dirty fs sel vp st] w h].
    cbn [this transport] in Ht. subst t. reflexivity.
  - destruct e as [[t fn lp pn sc rr ov dirty fs sel vp st] w h].
    cbn [this transport] in Ht. subst t. reflexivity.
  - intros c Hc. apply (no_transport_no_post deps c e Ht Hc).
  - intros n. destruct e as [[t fn lp pn sc rr ov dirty fs sel vp st] w h].
    cbn [this transport] in Ht. subst t. repeat split; reflexivity.
  - intros x. destruct e as [[t fn lp pn sc rr ov dirty fs sel vp st] w h].
    cbn [this transport] in Ht. subst t. repeat split; reflexivity.
  - intros c t Hc Hok. apply (no_transport_no_worse deps c t e Ht Hc Hok).
Qed.

(** Before any transport is attached: a page change, and a text edit that
    completes with a transport and so completes without one. *)
Lemma no_transport_drops_commands_witness :
  let loaded := after Sample.deps (OpenDocument Sample.request) Sample.start in
  (posted (after Sample.deps (SetPage (JFin 2.5)) loaded) = []
   /\ transport (this (after Sample.deps (SetPage (JFin 2.5)) loaded)) = None)
  /\ (outcome Sample.deps (SaveText "fullName" "Jane Doe") loaded = Ok tt
      /\ map PdfField.value
           (fields (this (after Sample.deps (SaveText "fullName" "Jane Doe") loaded)))
         = [FVString "Jane Doe"; FVBool true; FVString "SIGNED"]).
Proof.
  intros loaded.
  pose proof (no_transport_drops_commands Sample.deps loaded eq_refl)
    as (_ & _ & Hpost & _ & _ & Hsame).
  split.
  - exact (Hpost (SetPage (JFin 2.5)) eq_refl).
  - destruct (Hsame (SaveText "fullName" "Jane Doe") 0 eq_refl eq_refl) as [Hok Hst].
    split; [exact Hok|]. rewrite Hst. reflexivity.
Defined.


(* ===================================================================== *)
(** * Further properties of the controller                                *)
(* ===================================================================== *)

(* --------------------------------------------------------------------- *)
(** ** Layering extracted values on the template                          *)
(* --------------------------------------------------------------------- *)

Lemma layer_bindings (extracted : list PdfField.t) acc :
  fold_left (fun m f => (PdfField.name f, f) :: m) extracted acc
  = map (fun f => (PdfField.name f, f)) (rev extracted) ++ acc.
Proof.
  revert acc. induction extracted as [|f l IH]; intros acc; [reflexivity|].
  cbn [fold_left rev]. rewrite IH, map_app, <- app_assoc. reflexivity.
Qed.

Lemma map_get_bindings k (l : list PdfField.t) :
  map_get k (map (fun f => (PdfField.name f, f)) l) = find (named k) l.
Proof.
  unfold map_get, named. induction l as [|f l IH]; [reflexivity|].
  cbn [map find fst]. destruct (String.eqb (PdfField.name f) k); [reflexivity|exact IH].
Qed.

(** X1.  [layerValues] returns the template, field for field and in order:
    each field keeps everything but its value, and takes the value of the
    last extracted field of the same name, or keeps its own when no
    extracted field has that name. *)
Theorem layerValues_last_extracted_wins (template extracted : list PdfField.t) :
  Forall2 (fun t t' =>
             same_layout t t'
             /\ PdfField.scaledCoordinates t' = PdfField.scaledCoordinates t
             /\ PdfField.value t'
                = match find (named (PdfField.name t)) (rev extracted) with
                  | Some found => PdfField.value found
                  | None => PdfField.value t
                  end)
          template (layerValues template extracted).
Proof.
  unfold layerValues. rewrite layer_bindings, app_nil_r.
  induction template as [|t l IH]; cbn [map]; constructor; [|exact IH].
  rewrite map_get_bindings.
  destruct (find (named (PdfField.name t)) (rev extracted)) as [found|];
    unfold same_layout; repeat split; reflexivity.
Qed.

(* --------------------------------------------------------------------- *)
(** ** Selection                                                          *)
(* --------------------------------------------------------------------- *)

(** X2.  [selectField] always completes and changes neither the fields nor
    the world nor what was posted.  The selected field read back afterwards
    is a field of the session that bears the selected name; it is null when
    nothing or the empty name was selected, and when no field bears the
    name. *)
Theorem selected_field_lookup {W : Type} (deps : AttachedDocEditorDeps W)
    (e : Env W) (selection : option string) :
  let e' := after deps (SelectField selection) e in
  outcome deps (SelectField selection) e = Ok tt
  /\ fields (this e') = fields (this e)
  /\ world e' = world e
  /\ posted e' = posted e
  /\ gate_calls e' = gate_calls e
  /\ match getSelectedField (this e') with
     | Some f => selection = Some (PdfField.name f) /\ In f (fields (this e))
     | None =>
         forall n, selection = Some n ->
           n = EmptyString \/ forall f, In f (fields (this e)) -> PdfField.name f <> n
     end.
Proof.
  destruct e as [[t fn lp pn sc rr ov dirty fs sel vp st] w h].
  unfold posted, gate_calls, getSelectedField. reduce_m.
  repeat (split; [reflexivity|]).
  destruct selection as [n|]; cbn [truthy_string].
  - destruct (String.eqb n EmptyString) eqn:Hn.
    + intros n' H. injection H as <-. left. apply String.eqb_eq. exact Hn.
    + destruct (find _ fs) as [f|] eqn:Hf.
      * apply find_some in Hf. destruct Hf as [Hin Hname].
        apply String.eqb_eq in Hname. split; [congruence|exact Hin].
      * intros n' H. injection H as <-. right. intros f Hin Hname.
        pose proof (find_none _ _ Hf f Hin) as Hno. cbn in Hno.
        rewrite Hname, String.eqb_refl in Hno. discriminate Hno.
  - intros n H. discriminate H.
Qed.

Lemma selected_field_lookup_witness :
  let loaded := after Sample.deps (OpenDocument Sample.request) Sample.start in
  getSelectedField (this (after Sample.deps (SelectField (Some "agree")) loaded))
    = Some Sample.agree
  /\ forall f, In f (fields (this loaded)) -> PdfField.name f <> "nope".
Proof.
  intros loaded. split; [reflexivity|].
  pose proof (selected_field_lookup Sample.deps loaded (Some "nope"))
    as (_ & _ & _ & _ & _ & H).
  destruct (H "nope" eq_refl) as [He|Hn]; [discriminate He|exact Hn].
Defined.

(* --------------------------------------------------------------------- *)
(** ** Flags that are never cleared                                       *)
(* --------------------------------------------------------------------- *)

Lemma flags_latched_step {W : Type} (deps : AttachedDocEditorDeps W) c (e : Env W) :
  (isDirty (this e) = true -> isDirty (this (after deps c e)) = true)
  /\ (rendererReady (this e) = true -> rendererReady (this (after deps c e)) = true).
Proof.
  destruct e as [[t fn lp pn sc rr ov dirty fs sel vp st] w h].
  destruct c; crunch; split; intros H; try exact H; reflexivity.
Qed.

(** X3.  No method clears the dirty flag or the renderer-ready flag: once a
    session is dirty it stays dirty through any sequence of calls, and
    [requestClose] keeps refusing with the reason for unsaved changes; once
    the renderer is ready it stays ready, a new [openDocument] included. *)
Theorem flags_latched {W : Type} (deps : AttachedDocEditorDeps W)
    (calls : list Call) (e : Env W) :
  (isDirty (this e) = true ->
     isDirty (this (run deps calls e)) = true
     /\ requestClose (this (run deps calls e))
        = {| okToClose := false; reason := Some "Unsaved changes present" |})
  /\ (rendererReady (this e) = true -> rendererReady (this (run deps calls e)) = true).
Proof.
  revert e. induction calls as [|c calls IH]; intros e; cbn [run fold_left].
  - split; [|tauto]. intros H. split; [exact H|]. unfold requestClose. rewrite H. reflexivity.
  - destruct (flags_latched_step deps c e) as [Hd Hr].
    destruct (IH (after deps c e)) as [IHd IHr]. split; intros H.
    + apply IHd, Hd, H.
    + apply IHr, Hr, H.
Qed.

Lemma flags_latched_witness :
  let edited := run Sample.deps [OpenDocument Sample.request;
                                 SaveText "fullName" "Jane Doe"] Sample.start in
  let later := run Sample.deps [OnRendererMessage Sample.render_done_msg;
                                TimerFires refresh_complete;
                                OpenDocument Sample.request;
                                ClearFormCall] edited in
  isDirty (this later) = true
  /\ requestClose (this later)
     = {| okToClose := false; reason := Some "Unsaved changes present" |}.
Proof.
  intros edited later.
  exact (proj1 (flags_latched Sample.deps _ edited) eq_refl).
Defined.

(* --------------------------------------------------------------------- *)
(** ** Page and scale                                                     *)
(* --------------------------------------------------------------------- *)

Lemma max_one_floor (q : Q) :
  Math_max (JFin 1) (Math_floor (JFin q)) = JFin (inject_Z (Z.max 1 (Qfloor q))).
Proof.
  cbn [Math_floor Math_max].
  destruct (Qle_bool 1 (inject_Z (Qfloor q))) eqn:Hle.
  - apply Qle_bool_iff in Hle. change 1%Q with (inject_Z 1) in Hle.
    rewrite <- Zle_Qle in Hle. rewrite Z.max_r by exact Hle. reflexivity.
  - assert (Hlt : (Qfloor q < 1)%Z).
    { apply Z.lt_nge. intros Hge. rewrite (Zle_Qle 1) in Hge.
      apply Qle_bool_iff in Hge. change (inject_Z 1) with 1%Q in Hge. congruence. }
    rewrite Z.max_l by lia. reflexivity.
Qed.

(** X4.  [setPage] of a finite number stores the whole number
    max(1, floor n), so the stored page is an integer and at least 1; NaN is
    stored as NaN and plus infinity as plus infinity.  With a transport
    attached the call does three things in this order: it masks the
    overlays at the gate, posts SET_PAGE with the stored page, and emits a
    snapshot. *)
Theorem setPage_clamps {W : Type} (deps : AttachedDocEditorDeps W) (e : Env W) :
  (forall q, pageNumber (this (after deps (SetPage (JFin q)) e))
             = JFin (inject_Z (Z.max 1 (Qfloor q))))
  /\ pageNumber (this (after deps (SetPage JNaN) e)) = JNaN
  /\ pageNumber (this (after deps (SetPage (JInf false)) e)) = JInf false
  /\ pageNumber (this (after deps (SetPage (JInf true)) e)) = JFin 1
  /\ (forall n t, transport (this e) = Some t ->
        let e' := after deps (SetPage n) e in
        history e'
        = SnapshotEmitted (getSnapshot (this e'))
          :: Posted t (SET_PAGE (pageNumber (this e')))
               (PdfRendererPort.serializeCommand (renderer deps)
                  (SET_PAGE (pageNumber (this e'))))
          :: GateCalled (MaskOverlays "page-change") :: history e).
Proof.
  destruct e as [[t fn lp pn sc rr ov dirty fs sel vp st] w h].
  split; [|split; [|split; [|split]]].
  - intros q. rewrite <- max_one_floor. destruct t; reflexivity.
  - destruct t; reflexivity.
  - destruct t; reflexivity.
  - destruct t; reflexivity.
  - intros n t0 Ht. cbn [this transport] in Ht. subst t. reflexivity.
Qed.

Lemma setPage_clamps_witness :
  let attached := run Sample.deps [AttachRendererTransport 0] Sample.start in
  pageNumber (this (after Sample.deps (SetPage (JFin (-3.5))) attached)) = JFin 1
  /\ pageNumber (this (after Sample.deps (SetPage (JFin 2.75)) attached)) = JFin 2
  /\ posted (after Sample.deps (SetPage (JFin 2.75)) attached) = [SET_PAGE (JFin 2)].
Proof.
  intros attached.
  pose proof (setPage_clamps Sample.deps attached) as (Hfin & _ & _ & _ & Hhist).
  split; [exact (Hfin (-3.5)%Q)|split; [exact (Hfin 2.75%Q)|]].
  unfold posted. rewrite (Hhist (JFin 2.75) 0 eq_refl). reflexivity.
Defined.

(** X5.  [setScale] of a finite number stores the number itself when it is
    at least 0.1 and 0.1 otherwise, so the stored scale is never below 0.1;
    NaN is stored as NaN.  With a transport attached the call masks the
    overlays at the gate, then posts SET_SCALE with the stored scale, then
    emits a snapshot. *)
Theorem setScale_clamps {W : Type} (deps : AttachedDocEditorDeps W) (e : Env W) :
  (forall q, exists q',
        scale (this (after deps (SetScale (JFin q)) e)) = JFin q'
        /\ (0.1 <= q')%Q
        /\ ((0.1 <= q)%Q -> q' = q)
        /\ (~ (0.1 <= q)%Q -> q' = 0.1%Q))
  /\ scale (this (after deps (SetScale JNaN) e)) = JNaN
  /\ (forall x t, transport (this e) = Some t ->
        let e' := after deps (SetScale x) e in
        history e'
        = SnapshotEmitted (getSnapshot (this e'))
          :: Posted t (SET_SCALE (scale (this e')))
               (PdfRendererPort.serializeCommand (renderer deps)
                  (SET_SCALE (scale (this e'))))
          :: GateCalled (MaskOverlays "scale-change") :: history e).
Proof.
  destruct e as [[t fn lp pn sc rr ov dirty fs sel vp st] w h].
  split; [|split].
  - intros q.
    assert (Hs : scale (this (after deps (SetScale (JFin q))
                   {| this := {| transport := t; fileName := fn; localPath := lp;
                                 pageNumber := pn; scale := sc; rendererReady := rr;
                                 overlaysVisible := ov; isDirty := dirty; fields := fs;
                                 selectedFieldName := sel; viewport := vp; status := st |};
                      world := w; history := h |}))
                 = Math_max (JFin 0.1) (JFin q)) by (destruct t; reflexivity).
    rewrite Hs. cbn [Math_max].
    destruct (Qle_bool 0.1 q) eqn:Hle.
    + apply Qle_bool_iff in Hle. exists q. repeat split; tauto.
    + exists 0.1%Q. split; [reflexivity|split; [apply Qle_refl|split]].
      * intros Hq. apply Qle_bool_iff in Hq. congruence.
      * reflexivity.
  - destruct t; reflexivity.
  - intros x t0 Ht. cbn [this transport] in Ht. subst t. reflexivity.
Qed.

Lemma setScale_clamps_witness :
  let attached := run Sample.deps [AttachRendererTransport 0] Sample.start in
  posted (after Sample.deps (SetScale (JFin 0.01)) attached) = [SET_SCALE (JFin 0.1)].
Proof.
  intros attached.
  pose proof (setScale_clamps Sample.deps attached) as (_ & _ & Hhist).
  unfold posted. rewrite (Hhist (JFin 0.01) 0 eq_refl). reflexivity.
Defined.

(* --------------------------------------------------------------------- *)
(** ** Edits: guards, failure, completion                                 *)
(* --------------------------------------------------------------------- *)

(** X6.  Without a local path (none yet, or the empty string) every edit
    call throws before it does anything: the controller state changes in its
    status only, the world is untouched, and neither the writer nor the gate
    is called nor a timer set.  The error is No localPath, except that
    [saveText] and [toggleCheckbox] on an unknown name report the unknown
    field first. *)
Theorem edits_need_localPath {W : Type} (deps : AttachedDocEditorDeps W) (e : Env W) :
  truthy_string (localPath (this e)) = None ->
  (forall c, is_edit c = true ->
      (exists x, outcome deps c e = Err x)
      /\ this (after deps c e) = set_status (error_status c) (this e)
      /\ world (after deps c e) = world e
      /\ writer_calls (after deps c e) = writer_calls e
      /\ gate_calls (after deps c e) = gate_calls e
      /\ timers (after deps c e) = timers e)
  /\ (forall args, outcome deps (SaveSignature args) e = Err "No localPath")
  /\ outcome deps ClearFormCall e = Err "No localPath"
  /\ (forall n v, find (named n) (fields (this e)) <> None ->
        outcome deps (SaveText n v) e = Err "No localPath")
  /\ (forall n next, find (named n) (fields (this e)) <> None ->
        outcome deps (ToggleCheckbox n next) e = Err "No localPath").
Proof.
  destruct e as [[t fn lp pn sc rr ov dirty fs sel vp st] w h].
  cbn [this localPath fields]. intros Hp. unfold named.
  split; [|split; [|split; [|split]]].
  - intros c Hc. unfold writer_calls, gate_calls, timers.
    destruct c; try discriminate Hc; reduce_m; rewrite ?Hp;
      try (destruct (find _ fs)); reduce_m; rewrite ?Hp; reduce_m;
      (split; [eexists; reflexivity|repeat split; reflexivity]).
  - intros args. reduce_m. rewrite Hp. reflexivity.
  - reduce_m. rewrite Hp. reflexivity.
  - intros n v Hf. reduce_m. destruct (find _ fs); [|congruence].
    reduce_m. rewrite Hp. reflexivity.
  - intros n next Hf. reduce_m. destruct (find _ fs); [|congruence].
    reduce_m. rewrite Hp. reflexivity.
Qed.

Lemma edits_need_localPath_witness :
  outcome Sample.deps ClearFormCall Sample.start = Err "No localPath"
  /\ this (after Sample.deps (SaveSignature sign_all) Sample.start)
     = set_status (Some "Error saving signature") (this Sample.start).
Proof.
  pose proof (edits_need_localPath Sample.deps Sample.start eq_refl)
    as (Hall & _ & Hclear & _).
  split; [exact Hclear|].
  exact (proj1 (proj2 (Hall (SaveSignature sign_all) eq_refl))).
Defined.

(** X7.  An edit call that got past its guards calls the writer exactly once
    and leaves the session dirty and the overlays masked, whatever the
    writer does.  When the call completes, the status is Saved (Cleared for
    [clearForm]) and exactly one refresh-complete timer has been set.  When
    the writer throws, the same exception leaves the call after being
    reported to [onError], the status is the error status of the call, the
    fields are as before and no timer has been set. *)
Theorem edit_outcome {W : Type} (deps : AttachedDocEditorDeps W) (e : Env W) c :
  reaches_mask c (this e) = true ->
  let e' := after deps c e in
  isDirty (this e') = true
  /\ overlays_shown e' = false
  /\ (exists call, writer_calls e' = writer_calls e ++ [call])
  /\ (outcome deps c e = Ok tt ->
        status (this e') = done_status c
        /\ timers e' = timers e ++ [refresh_complete])
  /\ (forall x, outcome deps c e = Err x ->
        status (this e') = error_status c
        /\ fields (this e') = fields (this e)
        /\ timers e' = timers e
        /\ hd_error (history e') = Some (ErrorReported x)).
Proof.
  destruct e as [[t fn lp pn sc rr ov dirty fs sel vp st] w h].
  unfold writer_calls, timers.
  destruct c; cbn [reaches_mask this fields localPath]; try discriminate;
    crunch; intros Hg; try discriminate Hg; try congruence;
    (split; [reflexivity|split; [reflexivity|split; [eexists; reflexivity|split]]]);
    try (intros H; discriminate H); try (intros x' H; discriminate H).
  all: try (intros _; split; reflexivity).
  all: intros x' H; injection H as <-; repeat split; reflexivity.
Qed.

Lemma edit_outcome_witness :
  let loaded := after Sample.deps (OpenDocument Sample.request) Sample.start in
  let e' := after Sample.deps (ToggleCheckbox "agree" None) loaded in
  isDirty (this e') = true
  /\ overlays_shown e' = false
  /\ status (this e') = Some "Saved"
  /\ timers e' = [refresh_complete].
Proof.
  intros loaded e'.
  pose proof (edit_outcome Sample.deps loaded (ToggleCheckbox "agree" None) eq_refl)
    as (Hd & Ho & _ & Hok & _).
  destruct (Hok eq_refl) as [Hs Ht].
  split; [exact Hd|split; [exact Ho|split; [exact Hs|exact Ht]]].
Defined.

(** X8.  A [saveText] that completes has found a field of the given name
    and has replaced the value of every field of that name by the text,
    keeping the rest of those fields; every other field is the same as
    before, and the order is kept. *)
Theorem saveText_updates_named_fields {W : Type} (deps : AttachedDocEditorDeps W)
    (e : Env W) fieldName value :
  outcome deps (SaveText fieldName value) e = Ok tt ->
  fields (this (after deps (SaveText fieldName value) e))
    = map (set_named fieldName (FVString value)) (fields (this e))
  /\ (exists f, In f (fields (this e)) /\ PdfField.name f = fieldName)
  /\ (forall f, In f (fields (this e)) -> PdfField.name f <> fieldName ->
        In f (fields (this (after deps (SaveText fieldName value) e)))).
Proof.
  destruct e as [[t fn lp pn sc rr ov dirty fs sel vp st] w h].
  intros Hok.
  assert (H : fields (this (after deps (SaveText fieldName value)
                {| this := {| transport := t; fileName := fn; localPath := lp;
                              pageNumber := pn; scale := sc; rendererReady := rr;
                              overlaysVisible := ov; isDirty := dirty; fields := fs;
                              selectedFieldName := sel; viewport := vp; status := st |};
                   world := w; history := h |}))
              = map (set_named fieldName (FVString value)) fs
              /\ exists f, In f fs /\ PdfField.name f = fieldName).
  { revert Hok. unfold set_named. crunch; intros Hok; try discriminate Hok.
    split; [reflexivity|].
    match goal with Hf : find _ fs = Some ?f |- _ =>
      apply find_some in Hf; destruct Hf as [Hin Hn]; exists f;
      split; [exact Hin|apply String.eqb_eq; exact Hn] end. }
  destruct H as [Hfs Hex]. split; [exact Hfs|split; [exact Hex|]].
  intros f Hin Hn. rewrite Hfs. apply in_map_iff. exists f. split; [|exact Hin].
  unfold set_named. apply String.eqb_neq in Hn. rewrite Hn. reflexivity.
Qed.

Lemma saveText_updates_named_fields_witness :
  let loaded := after Sample.deps (OpenDocument Sample.request) Sample.start in
  map PdfField.value (fields (this (after Sample.deps (SaveText "fullName" "Jane Doe") loaded)))
  = [FVString "Jane Doe"; FVBool true; FVString "SIGNED"].
Proof.
  intros loaded.
  rewrite (proj1 (saveText_updates_named_fields Sample.deps loaded "fullName" "Jane Doe" eq_refl)).
  reflexivity.
Defined.

(* --------------------------------------------------------------------- *)
(** ** Checkboxes and signatures                                          *)
(* --------------------------------------------------------------------- *)

Lemma find_set_named n v (l : list PdfField.t) :
  find (named n) (map (set_named n v) l) = option_map (set_named n v) (find (named n) l).
Proof.
  unfold named, set_named. induction l as [|f l IH]; [reflexivity|].
  cbn [map find]. destruct (String.eqb (PdfField.name f) n) eqn:Hf.
  - cbn [PdfField.with_value PdfField.name]. rewrite Hf. cbn [option_map].
    rewrite Hf. reflexivity.
  - rewrite Hf. exact IH.
Qed.

Lemma set_named_twice n v1 v2 (l : list PdfField.t) :
  map (set_named n v2) (map (set_named n v1) l) = map (set_named n v2) l.
Proof.
  rewrite map_map. apply map_ext. intros f. unfold set_named.
  destruct (String.eqb (PdfField.name f) n) eqn:Hf.
  - cbn [PdfField.with_value PdfField.name]. rewrite Hf. reflexivity.
  - rewrite Hf. reflexivity.
Qed.

Lemma toggleCheckbox_result {W : Type} (deps : AttachedDocEditorDeps W)
    (e : Env W) n next first :
  find (named n) (fields (this e)) = Some first ->
  outcome deps (ToggleCheckbox n next) e = Ok tt ->
  fields (this (after deps (ToggleCheckbox n next) e))
  = map (set_named n (FVBool match next with
                             | Some b => b
                             | None => negb (Boolean (PdfField.value first))
                             end)) (fields (this e)).
Proof.
  destruct e as [[t fn lp pn sc rr ov dirty fs sel vp st] w h].
  cbn [this fields]. unfold named, set_named. intros Hf. reduce_m. rewrite Hf.
  crunch; intros Hok; try discriminate Hok; reflexivity.
Qed.

(** X9.  A [toggleCheckbox] without a next value writes the negation of the
    truthiness of the first field of that name, to every field of that
    name.  Two such toggles that complete leave each field of that name
    with the truthiness of the value the first one had at the start, as a
    boolean, and every other field as it was: a checked box is checked
    again, an unchecked one unchecked. *)
Theorem toggleCheckbox_twice {W : Type} (deps : AttachedDocEditorDeps W)
    (e : Env W) n first :
  find (named n) (fields (this e)) = Some first ->
  let once := after deps (ToggleCheckbox n None) e in
  let twice := after deps (ToggleCheckbox n None) once in
  outcome deps (ToggleCheckbox n None) e = Ok tt ->
  outcome deps (ToggleCheckbox n None) once = Ok tt ->
  fields (this once)
    = map (set_named n (FVBool (negb (Boolean (PdfField.value first))))) (fields (this e))
  /\ fields (this twice)
     = map (set_named n (FVBool (Boolean (PdfField.value first)))) (fields (this e)).
Proof.
  intros Hf once twice H1 H2.
  pose proof (toggleCheckbox_result deps e n None first Hf H1) as Honce.
  fold once in Honce. split; [exact Honce|].
  assert (Hf' : find (named n) (fields (this once))
                = Some (set_named n (FVBool (negb (Boolean (PdfField.value first)))) first)).
  { rewrite Honce, find_set_named, Hf. reflexivity. }
  pose proof (toggleCheckbox_result deps once n None _ Hf' H2) as Htwice.
  fold twice in Htwice. rewrite Htwice, Honce, set_named_twice.
  assert (Hn : String.eqb (PdfField.name first) n = true).
  { apply find_some in Hf. exact (proj2 Hf). }
  unfold set_named at 2. rewrite Hn. cbn [PdfField.with_value PdfField.value Boolean].
  rewrite negb_involutive. reflexivity.
Qed.

Lemma toggleCheckbox_twice_witness :
  let loaded := after Sample.deps (OpenDocument Sample.request) Sample.start in
  let once := after Sample.deps (ToggleCheckbox "agree" None) loaded in
  let twice := after Sample.deps (ToggleCheckbox "agree" None) once in
  map PdfField.value (fields (this once)) = [FVString "x"; FVBool false; FVString "SIGNED"]
  /\ map PdfField.value (fields (this twice)) = [FVString "x"; FVBool true; FVString "SIGNED"].
Proof.
  intros loaded once twice.
  destruct (toggleCheckbox_twice Sample.deps loaded "agree" Sample.agree
              eq_refl eq_refl eq_refl) as [H1 H2].
  fold once in H1. fold once twice in H2. rewrite H1, H2. split; reflexivity.
Defined.

(** X10.  A [saveSignature] that completes marks fields with the string
    SIGNED and changes no other field: in mode all, exactly the fields of
    type PDFSignature; in mode single with a non-empty target, exactly the
    fields of that name, whatever their type. *)
Theorem saveSignature_marks {W : Type} (deps : AttachedDocEditorDeps W)
    (e : Env W) args :
  outcome deps (SaveSignature args) e = Ok tt ->
  let fs' := fields (this (after deps (SaveSignature args) e)) in
  (mode args = all ->
     fs' = map (fun f => if String.eqb (PdfField.type f) "PDFSignature"
                         then PdfField.with_value f (FVString "SIGNED") else f)
               (fields (this e)))
  /\ (forall target,
        mode args = single -> targetFieldName args = Some target ->
        target <> EmptyString ->
        fs' = map (set_named target (FVString "SIGNED")) (fields (this e))).
Proof.
  destruct e as [[t fn lp pn sc rr ov dirty fs sel vp st] w h]. intros Hok.
  assert (H : fields (this (after deps (SaveSignature args)
                {| this := {| transport := t; fileName := fn; localPath := lp;
                              pageNumber := pn; scale := sc; rendererReady := rr;
                              overlaysVisible := ov; isDirty := dirty; fields := fs;
                              selectedFieldName := sel; viewport := vp; status := st |};
                   world := w; history := h |}))
              = mark_signed args fs).
  { revert Hok. crunch; intros Hok; try discriminate Hok; reflexivity. }
  cbn zeta. rewrite H. cbn [this fields]. unfold mark_signed. split.
  - intros ->. reflexivity.
  - intros target -> -> Hne. cbn [truthy_string].
    apply String.eqb_neq in Hne. rewrite Hne. reflexivity.
Qed.

Lemma saveSignature_marks_witness :
  let loaded := after Sample.deps (OpenDocument Sample.request) Sample.start in
  let cleared_form := after Sample.deps ClearFormCall loaded in
  map PdfField.value (fields (this (after Sample.deps (SaveSignature sign_all) cleared_form)))
  = [FVString EmptyString; FVBool false; FVString "SIGNED"]
  /\ map PdfField.value (fields (this (after Sample.deps (SaveSignature sign_fullName) cleared_form)))
     = [FVString "SIGNED"; FVBool false; FVNull].
Proof.
  intros loaded cleared_form.
  split.
  - rewrite (proj1 (saveSignature_marks Sample.deps cleared_form sign_all eq_refl) eq_refl).
    reflexivity.
  - rewrite (proj2 (saveSignature_marks Sample.deps cleared_form sign_fullName eq_refl)
               "fullName" eq_refl eq_refl).
    + reflexivity.
    + intros H. discriminate H.
Defined.

(* --------------------------------------------------------------------- *)
(** ** Inbound messages                                                   *)
(* --------------------------------------------------------------------- *)

(** X11.  A raw message that the bridge does not parse changes nothing: no
    state, no world, no event, the gate is not ticked.  Every message that
    parses ticks the gate with its type before any other gate call.  A
    DEBUG_PAGE_COUNT message does no more than that: the controller state is
    as before, and no snapshot is emitted. *)
Theorem message_ticks_gate {W : Type} (deps : AttachedDocEditorDeps W)
    (e : Env W) raw :
  (PdfRendererPort.parseInboundMessage (renderer deps) raw = None ->
     perform deps (OnRendererMessage raw) e = (Ok tt, e))
  /\ (forall m, PdfRendererPort.parseInboundMessage (renderer deps) raw = Some m ->
        exists later,
          gate_calls (after deps (OnRendererMessage raw) e)
          = gate_calls e ++ MarkTick (msg_type m) :: later)
  /\ (forall pages,
        PdfRendererPort.parseInboundMessage (renderer deps) raw
          = Some (DEBUG_PAGE_COUNT pages) ->
        outcome deps (OnRendererMessage raw) e = Ok tt
        /\ this (after deps (OnRendererMessage raw) e) = this e
        /\ snapshots (after deps (OnRendererMessage raw) e) = snapshots e
        /\ gate_calls (after deps (OnRendererMessage raw) e)
           = gate_calls e ++ [MarkTick "DEBUG_PAGE_COUNT"]).
Proof.
  destruct e as [[t fn lp pn sc rr ov dirty fs sel vp st] w h].
  split; [|split].
  - intros Hp. reduce_m. rewrite Hp. reflexivity.
  - intros m Hp. unfold gate_calls. reduce_m. rewrite Hp.
    destruct m; crunch; cbn [flat_map rev app]; rewrite <- ?app_assoc; cbn [app];
      eexists; reflexivity.
  - intros pages Hp. unfold gate_calls, snapshots. reduce_m. rewrite Hp.
    repeat split; reflexivity.
Qed.

Lemma message_ticks_gate_witness :
  perform Sample.deps (OnRendererMessage (lit "{'type':'BOGUS'}")) Sample.start
  = (Ok tt, Sample.start)
  /\ this (after Sample.deps (OnRendererMessage (lit "{'type':'DEBUG_PAGE_COUNT','pages':3}"))
             Sample.start) = this Sample.start.
Proof.
  split.
  - exact (proj1 (message_ticks_gate Sample.deps Sample.start
                    (lit "{'type':'BOGUS'}")) eq_refl).
  - exact (proj1 (proj2 (proj2 (proj2 (message_ticks_gate Sample.deps Sample.start
                    (lit "{'type':'DEBUG_PAGE_COUNT','pages':3}")))
                           (JFin 3) eq_refl))).
Defined.

(** X12.  An event that [parseRendererInboundMessage] returns comes from a
    text that is JSON and whose [type] member is the type of the event; the
    numbers of a PDF_DIMENSIONS or DEBUG_PAGE_COUNT event are the [Number]
    coercions of the members of those names, and the rotation is undefined
    exactly when the member is absent or null.  Conversely a JSON value
    whose [type] is READY, RENDER_DONE or READY_FOR_OVERLAYS gives that
    event whatever other members it has. *)
Theorem parsed_event_matches_text (B : Coercions) raw :
  (forall m, parseRendererInboundMessage B raw = Some m ->
     exists data,
       JSON_parse raw = Ok data
       /\ get_property data "type" = Some (VStr (msg_type m))
       /\ match m with
          | PDF_DIMENSIONS w h s r =>
              Number B (get_property data "width") = Ok w
              /\ Number B (get_property data "height") = Ok h
              /\ Number B (get_property data "scale") = Ok s
              /\ (if loosely_null (get_property data "rotation") then r = None
                  else exists x, Number B (get_property data "rotation") = Ok x
                                 /\ r = Some x)
          | DEBUG_PAGE_COUNT p => Number B (get_property data "pages") = Ok p
          | _ => True
          end)
  /\ (forall data m,
        JSON_parse raw = Ok data -> bare m = true ->
        get_property data "type" = Some (VStr (msg_type m)) ->
        parseRendererInboundMessage B raw = Some m).
Proof.
  split.
  - intros m. unfold parseRendererInboundMessage, parse_try.
    destruct (JSON_parse raw) as [data|x]; cbn [bind_result]; [|discriminate].
    destruct (truthy data); cbn [negb]; [|discriminate].
    destruct (get_property data "type") as [[| | |ty| |]|] eqn:Hty; try discriminate.
    destruct (String.eqb ty "READY") eqn:H1;
      [apply String.eqb_eq in H1; subst ty; intros H; injection H as <-;
       exists data; repeat split; first [reflexivity|assumption]|].
    destruct (String.eqb ty "RENDER_DONE") eqn:H2;
      [apply String.eqb_eq in H2; subst ty; intros H; injection H as <-;
       exists data; repeat split; first [reflexivity|assumption]|].
    destruct (String.eqb ty "READY_FOR_OVERLAYS") eqn:H3;
      [apply String.eqb_eq in H3; subst ty; intros H; injection H as <-;
       exists data; repeat split; first [reflexivity|assumption]|].
    destruct (String.eqb ty "PDF_DIMENSIONS") eqn:H4.
    { apply String.eqb_eq in H4; subst ty.
      destruct (Number B (get_property data "width")) as [w|] eqn:Hw;
        cbn [bind_result]; [|discriminate].
      destruct (Number B (get_property data "height")) as [h|] eqn:Hh;
        cbn [bind_result]; [|discriminate].
      destruct (Number B (get_property data "scale")) as [s|] eqn:Hs;
        cbn [bind_result]; [|discriminate].
      destruct (loosely_null (get_property data "rotation")) eqn:Hr; cbn [bind_result].
      - intros H; injection H as <-. exists data.
        split; [reflexivity|split; [exact Hty|]].
        rewrite ?Hr. repeat split; first [reflexivity|assumption].
      - destruct (Number B (get_property data "rotation")) as [x|] eqn:Hx;
          cbn [bind_result]; [|discriminate].
        intros H; injection H as <-. exists data.
        split; [reflexivity|split; [exact Hty|]].
        rewrite ?Hr. repeat split; try first [reflexivity|assumption].
        exists x. split; first [reflexivity|assumption]. }
    destruct (String.eqb ty "DEBUG_PAGE_COUNT") eqn:H5; [|discriminate].
    apply String.eqb_eq in H5; subst ty.
    destruct (Number B (get_property data "pages")) as [p|] eqn:Hp;
      cbn [bind_result]; [|discriminate].
    intros H; injection H as <-. exists data. repeat split; first [reflexivity|assumption].
  - intros data m Hj Hb Hty. unfold parseRendererInboundMessage, parse_try.
    rewrite Hj. cbn [bind_result].
    assert (Ht : truthy data = true).
    { destruct data; try discriminate Hty. reflexivity. }
    rewrite Ht, Hty. cbn [negb]. destruct m; try discriminate Hb; reflexivity.
Qed.

Lemma parsed_event_matches_text_witness :
  parseRendererInboundMessage no_coercion
    (lit "{'width':800,'type':'RENDER_DONE','type':'READY','pages':[1,2]}") = Some READY.
Proof.
  apply (proj2 (parsed_event_matches_text no_coercion _))
    with (data := VObj [("width", VNum (JFin 800)); ("type", VStr "RENDER_DONE");
                        ("type", VStr "READY");
                        ("pages", VArr [VNum (JFin 1); VNum (JFin 2)])]);
    reflexivity.
Defined.

(* --------------------------------------------------------------------- *)
(** ** Snapshots                                                          *)
(* --------------------------------------------------------------------- *)

(** X13.  The constructor emits a snapshot, and every call leaves the last
    emitted snapshot equal to the current state, with one exception: a
    renderer message during which the coordinate transform throws.  So the
    user interface holds the current state as long as every renderer
    message has completed. *)
Theorem snapshot_in_sync {W : Type} (deps : AttachedDocEditorDeps W) :
  (forall w : W, in_sync (construct w))
  /\ (forall c (e : Env W),
        in_sync e ->
        (forall raw, c = OnRendererMessage raw -> outcome deps c e = Ok tt) ->
        in_sync (after deps c e)).
Proof.
  split; [intros w; reflexivity|].
  intros c e. destruct e as [[t fn lp pn sc rr ov dirty fs sel vp st] w h].
  unfold in_sync, last_snapshot.
  destruct c; try (crunch; intros Hs _; first [reflexivity|exact Hs]).
  crunch; intros Hs Hok; try reflexivity; try exact Hs.
  all: specialize (Hok raw eq_refl); discriminate Hok.
Qed.

Lemma snapshot_in_sync_witness :
  in_sync (after Sample.deps (OnRendererMessage Sample.dims_msg)
             (after Sample.deps (OpenDocument Sample.request) Sample.start)).
Proof.
  apply (proj2 (snapshot_in_sync Sample.deps)).
  - apply (proj2 (snapshot_in_sync Sample.deps)).
    + exact (proj1 (snapshot_in_sync Sample.deps) false).
    + intros raw H. discriminate H.
  - intros raw _. reflexivity.
Defined.

(* --------------------------------------------------------------------- *)
(** ** The field list                                                     *)
(* --------------------------------------------------------------------- *)

Lemma same_layout_refl f : same_layout f f.
Proof. unfold same_layout. repeat split; reflexivity. Qed.

Lemma same_layout_with_value f v : same_layout f (PdfField.with_value f v).
Proof. unfold same_layout. repeat split; reflexivity. Qed.

Lemma Forall2_same_layout_refl (l : list PdfField.t) : Forall2 same_layout l l.
Proof. induction l; constructor; auto using same_layout_refl. Qed.

Lemma Forall2_same_layout_map (g : PdfField.t -> PdfField.t) (l : list PdfField.t) :
  (forall f, same_layout f (g f)) -> Forall2 same_layout l (map g l).
Proof. intros Hg. induction l; cbn [map]; constructor; auto. Qed.

Lemma rescale_rescaled_by {W : Type} (deps : AttachedDocEditorDeps W) vp f f' :
  rescale deps vp f = Ok f' -> rescaled_by (coordTransform deps) vp f f'.
Proof.
  unfold rescale, rescaled_by.
  destruct vp as [vw vh vs vr]. cbn [Viewport.width Viewport.height Viewport.scale Viewport.rotation].
  destruct (PdfField.relativeCoordinates f) as [rect|] eqn:Hr.
  - destruct (CoordinateTransformPort.toPixelRect _ _ _) as [px|x] eqn:Hp; [|discriminate].
    intros H. injection H as <-. split; [|split; [reflexivity|]].
    + unfold same_layout. repeat split; reflexivity.
    + exists px. split; [first [exact Hp|reflexivity]|reflexivity].
  - intros H. injection H as <-. split; [apply same_layout_refl|split; reflexivity].
Qed.

Lemma map_throwing_Forall2 {A C} (f : A -> result C) (R : A -> C -> Prop) l l' :
  (forall a c, f a = Ok c -> R a c) ->
  map_throwing f l = Ok l' -> Forall2 R l l'.
Proof.
  intros Hf. revert l'. induction l as [|a l IH]; cbn [map_throwing]; intros l' H.
  - injection H as <-. constructor.
  - destruct (f a) as [c|] eqn:Ha; [|discriminate].
    destruct (map_throwing f l) as [cs|]; [|discriminate].
    injection H as <-. constructor; auto.
Qed.

Lemma rescaled_by_same_layout t vp f f' : rescaled_by t vp f f' -> same_layout f f'.
Proof. intros H. exact (proj1 H). Qed.

Lemma Forall2_impl {A C} (R R' : A -> C -> Prop) l l' :
  (forall a c, R a c -> R' a c) -> Forall2 R l l' -> Forall2 R' l l'.
Proof. intros H HF. induction HF; constructor; auto. Qed.

Lemma Forall2_same_layout_trans (l1 l2 l3 : list PdfField.t) :
  Forall2 same_layout l1 l2 -> Forall2 same_layout l2 l3 -> Forall2 same_layout l1 l3.
Proof.
  intros H12. revert l3. induction H12 as [|a b l1 l2 Hab _ IH]; intros l3 H23;
    inversion H23; subst; constructor; [|auto].
  unfold same_layout in *. intuition congruence.
Qed.

Lemma mark_signed_same_layout args (l : list PdfField.t) :
  Forall2 same_layout l (mark_signed args l).
Proof.
  unfold mark_signed.
  destruct (mode args); [destruct (truthy_string (targetFieldName args))|].
  - apply Forall2_same_layout_map. intros f.
    destruct (String.eqb _ _); auto using same_layout_refl, same_layout_with_value.
  - apply Forall2_same_layout_refl.
  - apply Forall2_same_layout_map. intros f.
    destruct (String.eqb _ _); auto using same_layout_refl, same_layout_with_value.
Qed.

Lemma cleared_same_layout f : same_layout f (cleared f).
Proof.
  unfold cleared.
  repeat (destruct (String.eqb _ _)); apply same_layout_with_value.
Qed.

(** X14.  Only [openDocument] changes which fields the session has.  Every
    other call leaves the field list with the same length and order, and
    each field with its name, type, page, raw and relative coordinates,
    flags and metadata: edits change values, dimension reports change pixel
    boxes, nothing else changes.  An [openDocument] that completes leaves
    the fields of the returned template, in that sense. *)
Theorem field_layout_kept {W : Type} (deps : AttachedDocEditorDeps W) (e : Env W) :
  (forall c, opens c = false ->
     Forall2 same_layout (fields (this e)) (fields (this (after deps c e))))
  /\ (forall req res w',
        PdfInstanceManagerPort.open (instanceManager deps) req (world e) = (Ok res, w') ->
        outcome deps (OpenDocument req) e = Ok tt ->
        Forall2 same_layout (OpenPdfInstanceResult.template res)
                (fields (this (after deps (OpenDocument req) e)))).
Proof.
  destruct e as [[t fn lp pn sc rr ov dirty fs sel vp st] w h]. split.
  - intros c Hc. destruct c; try discriminate Hc; crunch;
      try apply Forall2_same_layout_refl;
      try (apply Forall2_same_layout_map; intros f;
           try apply cleared_same_layout;
           destruct (String.eqb _ _);
           auto using same_layout_refl, same_layout_with_value);
      try apply mark_signed_same_layout.
    all: match goal with
         | H : map_throwing (rescale ?d ?v) _ = Ok ?l |- Forall2 same_layout _ ?l =>
             apply (Forall2_impl (rescaled_by (coordTransform d) v));
             [apply rescaled_by_same_layout
             |exact (map_throwing_Forall2 _ _ _ _ (rescale_rescaled_by d v) H)]
         end.
  - intros req res w' Ho.
    assert (Hl : Forall2 same_layout (OpenPdfInstanceResult.template res) (layered res)).
    { apply (Forall2_impl _ _ _ _ (fun a c H => proj1 H)
               (layerValues_last_extracted_wins _ _)). }
    cbn [this world] in Ho. reduce_m. rewrite Ho. crunch; intros Hok;
      try discriminate Hok; try exact Hl.
    all: match goal with
         | H : map_throwing (rescale ?d ?v) _ = Ok ?l |- Forall2 same_layout _ ?l =>
             apply (Forall2_same_layout_trans _ _ _ Hl);
             apply (Forall2_impl (rescaled_by (coordTransform d) v));
             [apply rescaled_by_same_layout
             |exact (map_throwing_Forall2 _ _ _ _ (rescale_rescaled_by d v) H)]
         end.
Qed.

Lemma field_layout_kept_witness :
  let loaded := after Sample.deps (OpenDocument Sample.request) Sample.start in
  Forall2 same_layout (fields (this loaded))
          (fields (this (run Sample.deps [OnRendererMessage Sample.dims_msg;
                                          ClearFormCall;
                                          SaveSignature sign_fullName] loaded))).
Proof.
  intros loaded. cbn [run fold_left].
  eapply Forall2_same_layout_trans;
    [eapply Forall2_same_layout_trans|];
    apply (proj1 (field_layout_kept Sample.deps _)); reflexivity.
Defined.

(** X15.  A dimension report that completes changes pixel boxes only: each
    field keeps its value and layout; a field with relative coordinates
    gets the box the transform returns for them and the reported viewport,
    and a field without relative coordinates keeps the box it had, if
    any. *)
Theorem dimensions_rescale_fields {W : Type} (deps : AttachedDocEditorDeps W)
    (e : Env W) raw w h s r :
  PdfRendererPort.parseInboundMessage (renderer deps) raw
    = Some (PDF_DIMENSIONS w h s r) ->
  outcome deps (OnRendererMessage raw) e = Ok tt ->
  Forall2 (rescaled_by (coordTransform deps) (reported w h s r))
          (fields (this e)) (fields (this (after deps (OnRendererMessage raw) e))).
Proof.
  intros Hp. destruct e as [[t fn lp pn sc rr ov dirty fs sel vp st] w0 h0].
  unfold reported. reduce_m. rewrite Hp. reduce_m.
  destruct (map_throwing _ fs) as [fs'|x] eqn:Hm; reduce_m; intros Hok;
    [|discriminate Hok].
  exact (map_throwing_Forall2 _ _ _ _ (rescale_rescaled_by deps _) Hm).
Qed.

Lemma dimensions_rescale_fields_witness :
  let e := {| this := set_fields [Sample.fullName; unplaced] initial;
              world := false; history := [] |} in
  map PdfField.scaledCoordinates
      (fields (this (after Sample.deps (OnRendererMessage Sample.dims_without_width_msg) e)))
  = [Some NaN_box; Some old_box].
Proof.
  intros e.
  pose proof (dimensions_rescale_fields Sample.deps e Sample.dims_without_width_msg
                JNaN (JFin 600) (JFin (Qred 1.5)) None eq_refl eq_refl) as H.
  inversion H as [|f1 f1' l1 l1' H1 Ht]; subst.
  inversion Ht as [|f2 f2' l2 l2' H2 Ht']; subst.
  inversion Ht'; subst. reflexivity.
Defined.

(* --------------------------------------------------------------------- *)
(** ** The published reader                                               *)
(* --------------------------------------------------------------------- *)

(** X16.  With the reader the repository publishes, [openDocument] cannot
    complete once a transport is attached and the renderer is ready: when
    the instance manager returns a non-empty local path, the call throws,
    with the status set to the opening error, and nothing is posted. *)
Theorem openDocument_published_reader_throws {W : Type}
    (deps : AttachedDocEditorDeps W) (e : Env W) req res w' t path :
  readPdfAsBase64 deps = readPdfAsBase64_published ->
  transport (this e) = Some t ->
  rendererReady (this e) = true ->
  PdfInstanceManagerPort.open (instanceManager deps) req (world e) = (Ok res, w') ->
  truthy_string (Some (OpenPdfInstanceResult.localPath res)) = Some path ->
  (exists x, outcome deps (OpenDocument req) e = Err x)
  /\ status (this (after deps (OpenDocument req) e)) = Some "Error opening document"
  /\ posted (after deps (OpenDocument req) e) = posted e.
Proof.
  intros Hr Ht Hrr Ho Hpath.
  destruct e as [[t0 fn lp pn sc rr ov dirty fs sel vp st] w h].
  cbn [this transport rendererReady world] in Ht, Hrr, Ho. subst t0 rr.
  unfold posted. reduce_m. rewrite Ho. crunch;
    repeat match goal with
           | H : readPdfAsBase64 _ _ _ = _ |- _ =>
               rewrite Hr in H; unfold readPdfAsBase64_published in H;
               inversion H; subst; clear H
           end;
    try congruence; (split; [eexists; reflexivity|split; reflexivity]).
Qed.

Lemma openDocument_published_reader_throws_witness :
  let ready := run Sample.deps [AttachRendererTransport 0;
                                OnRendererMessage Sample.ready_msg] Sample.start in
  (exists x, outcome Sample.deps (OpenDocument Sample.request) ready = Err x)
  /\ status (this (after Sample.deps (OpenDocument Sample.request) ready))
     = Some "Error opening document"
  /\ posted (after Sample.deps (OpenDocument Sample.request) ready) = posted ready.
Proof.
  intros ready.
  exact (openDocument_published_reader_throws Sample.deps ready Sample.request
           Sample.opened false 0 "work/form.pdf" eq_refl eq_refl eq_refl eq_refl eq_refl).
Defined.

(* --------------------------------------------------------------------- *)
(** ** What is posted, and where                                          *)
(* --------------------------------------------------------------------- *)

(** X17.  A call posts at most one command, and only to the transport that
    was attached when the call began.  [setPage] posts nothing but
    SET_PAGE, [setScale] nothing but SET_SCALE, [openDocument] and a
    renderer message nothing but LOAD_PDF_BASE64; an edit, a selection, a
    timer and [attachRendererTransport] post nothing.  No call but
    [attachRendererTransport] changes the transport. *)
Theorem posting_discipline {W : Type} (deps : AttachedDocEditorDeps W) (e : Env W) c :
  (attaches c = false -> transport (this (after deps c e)) = transport (this e))
  /\ (posts_of (history (after deps c e)) = posts_of (history e)
      \/ exists t cmd,
           transport (this e) = Some t
           /\ may_post c cmd
           /\ posts_of (history (after deps c e)) = posts_of (history e) ++ [(t, cmd)]).
Proof.
  destruct e as [[t fn lp pn sc rr ov dirty fs sel vp st] w h].
  unfold posts_of.
  destruct c; crunch; (split; [intros H; first [reflexivity|discriminate H]|]);
    first [left; reflexivity
          |right; eexists; eexists; split; [reflexivity|];
           apply (proj1 (and_comm _ _)); split; [reflexivity|exact I]].
Qed.

Lemma posting_discipline_witness :
  let first := run Sample.deps [AttachRendererTransport 1; SetPage (JFin 2)] Sample.start in
  let second := run Sample.deps [AttachRendererTransport 2; SetScale (JFin 2)] first in
  transport (this first) = Some 1
  /\ posts_of (history second) = [(1, SET_PAGE (JFin 2)); (2, SET_SCALE (JFin 2))].
Proof.
  intros first second. split.
  - exact (eq_trans
             (proj1 (posting_discipline Sample.deps
                       (after Sample.deps (AttachRendererTransport 1) Sample.start)
                       (SetPage (JFin 2))) eq_refl)
             eq_refl).
  - reflexivity.
Defined.


(* --------------------------------------------------------------------- *)
(** ** What [openDocument] leaves alone, and the load handshake           *)
(* --------------------------------------------------------------------- *)

(** X20.  [openDocument], whether it completes or throws, resets nothing of
    the previous session but the document: page number, scale, viewport,
    selection, dirty flag, overlay flag, renderer-ready flag and transport
    are what they were. *)
Theorem openDocument_resets_nothing {W : Type} (deps : AttachedDocEditorDeps W)
    (e : Env W) req :
  let s' := this (after deps (OpenDocument req) e) in
  pageNumber s' = pageNumber (this e)
  /\ scale s' = scale (this e)
  /\ viewport s' = viewport (this e)
  /\ selectedFieldName s' = selectedFieldName (this e)
  /\ isDirty s' = isDirty (this e)
  /\ overlaysVisible s' = overlaysVisible (this e)
  /\ rendererReady s' = rendererReady (this e)
  /\ transport s' = transport (this e).
Proof.
  destruct e as [[t fn lp pn sc rr ov dirty fs sel vp st] w h].
  crunch; repeat split; reflexivity.
Qed.

(** X21.  The load step reaches the reader at whichever comes last of
    [openDocument] and READY, and only with a transport attached.  An
    [openDocument] without a transport or before the renderer is ready
    neither calls the reader nor posts; a READY without a transport or
    before a local path is set marks the renderer ready and neither calls
    the reader nor posts.  A READY with a transport and a local path calls
    the reader once, with that path; so does an [openDocument] with a
    transport and the renderer ready for which the instance manager and the
    transform return, with the new local path.  The reader the repository
    ships then throws: the READY completes all the same, the [openDocument]
    throws the reader's error, and neither posts. *)
Theorem load_handshake {W : Type} (deps : AttachedDocEditorDeps W) (e : Env W) :
  readPdfAsBase64 deps = readPdfAsBase64_published ->
  (forall req,
     transport (this e) = None \/ rendererReady (this e) = false ->
     reads (after deps (OpenDocument req) e) = reads e
     /\ posted (after deps (OpenDocument req) e) = posted e)
  /\ (forall raw,
        PdfRendererPort.parseInboundMessage (renderer deps) raw = Some READY ->
        transport (this e) = None \/ truthy_string (localPath (this e)) = None ->
        reads (after deps (OnRendererMessage raw) e) = reads e
        /\ posted (after deps (OnRendererMessage raw) e) = posted e
        /\ rendererReady (this (after deps (OnRendererMessage raw) e)) = true)
  /\ (forall raw t path,
        PdfRendererPort.parseInboundMessage (renderer deps) raw = Some READY ->
        transport (this e) = Some t ->
        truthy_string (localPath (this e)) = Some path ->
        reads (after deps (OnRendererMessage raw) e) = reads e ++ [path]
        /\ outcome deps (OnRendererMessage raw) e = Ok tt
        /\ posted (after deps (OnRendererMessage raw) e) = posted e)
  /\ (forall req res w1 t path,
        transport (this e) = Some t ->
        rendererReady (this e) = true ->
        PdfInstanceManagerPort.open (instanceManager deps) req (world e) = (Ok res, w1) ->
        truthy_string (Some (OpenPdfInstanceResult.localPath res)) = Some path ->
        (forall vp, viewport (this e) = Some vp ->
           exists fs, map_throwing (rescale deps vp) (layered res) = Ok fs) ->
        reads (after deps (OpenDocument req) e) = reads e ++ [path]
        /\ outcome deps (OpenDocument req) e
           = Err "REDACTED: readPdfAsBase64(localPath) is private implementation"
        /\ posted (after deps (OpenDocument req) e) = posted e).
Proof.
  intros Hr.
  destruct e as [[t fn lp pn sc rr ov dirty fs sel vp st] w h].
  cbn [this transport rendererReady localPath viewport world].
  unfold posted, reads, layered.
  split; [|split; [|split]].
  - intros req [->| ->]; crunch; split; reflexivity.
  - intros raw Hp [->|Hl]; reduce_m; rewrite Hp; reduce_m; rewrite ?Hl;
      crunch; repeat split; reflexivity.
  - intros raw t0 path Hp -> Hl. reduce_m. rewrite Hp. reduce_m. rewrite Hl.
    reduce_m. rewrite Hr. unfold readPdfAsBase64_published. reduce_m.
    repeat split; reflexivity.
  - intros req res w1 t0 path -> -> Ho Hpath Hresc.
    reduce_m. rewrite Ho. reduce_m.
    destruct vp as [vp|]; reduce_m.
    + destruct (Hresc vp eq_refl) as [fs' Hfs]. rewrite Hfs. reduce_m.
      rewrite Hpath. reduce_m. rewrite Hr. unfold readPdfAsBase64_published.
      reduce_m. repeat split; reflexivity.
    + rewrite Hpath. reduce_m. rewrite Hr. unfold readPdfAsBase64_published.
      reduce_m. repeat split; reflexivity.
Qed.

Lemma load_handshake_witness :
  let attached := after Sample.deps (AttachRendererTransport 0) Sample.start in
  let opened_first := after Sample.deps (OpenDocument Sample.request) attached in
  let ready_first := after Sample.deps (OnRendererMessage Sample.ready_msg) attached in
  (reads opened_first = [] /\ reads ready_first = [])
  /\ (reads (after Sample.deps (OnRendererMessage Sample.ready_msg) opened_first)
        = ["work/form.pdf"]
      /\ outcome Sample.deps (OnRendererMessage Sample.ready_msg) opened_first = Ok tt
      /\ posted (after Sample.deps (OnRendererMessage Sample.ready_msg) opened_first) = [])
  /\ (reads (after Sample.deps (OpenDocument Sample.request) ready_first)
        = ["work/form.pdf"]
      /\ outcome Sample.deps (OpenDocument Sample.request) ready_first
         = Err "REDACTED: readPdfAsBase64(localPath) is private implementation"
      /\ posted (after Sample.deps (OpenDocument Sample.request) ready_first) = []).
Proof.
  intros attached opened_first ready_first.
  split; [split|split].
  - exact (proj1 (proj1 (load_handshake Sample.deps attached eq_refl)
                    Sample.request (or_intror eq_refl))).
  - exact (proj1 (proj1 (proj2 (load_handshake Sample.deps attached eq_refl))
                    Sample.ready_msg eq_refl (or_intror eq_refl))).
  - exact (proj1 (proj2 (proj2 (load_handshake Sample.deps opened_first eq_refl)))
             Sample.ready_msg 0 "work/form.pdf" eq_refl eq_refl eq_refl).
  - refine (proj2 (proj2 (proj2 (load_handshake Sample.deps ready_first eq_refl)))
              Sample.request Sample.opened false 0 "work/form.pdf"
              eq_refl eq_refl eq_refl eq_refl _).
    intros vp H. discriminate H.
Defined.

(* --------------------------------------------------------------------- *)
(** ** Unmask requests                                                    *)
(* --------------------------------------------------------------------- *)

(** X22.  The controller asks the gate to unmask in three places only, once
    each time: on RENDER_DONE (after marking the render done), on
    READY_FOR_OVERLAYS (without marking any render done), and when the
    refresh-complete timer fires.  So an edit never unmasks by itself: the
    overlays it masked stay masked until the timer or the renderer speaks. *)
Theorem unmask_requests_sources {W : Type} (deps : AttachedDocEditorDeps W)
    (e : Env W) c :
  (asks_gate deps c = false ->
     unmask_requests (after deps c e) = unmask_requests e)
  /\ (forall raw,
        c = OnRendererMessage raw ->
        PdfRendererPort.parseInboundMessage (renderer deps) raw = Some RENDER_DONE ->
        gate_calls (after deps c e)
        = gate_calls e ++ [MarkTick "RENDER_DONE"; MarkRenderDone;
                           RequestUnmask "render-done"])
  /\ (forall raw,
        c = OnRendererMessage raw ->
        PdfRendererPort.parseInboundMessage (renderer deps) raw = Some READY_FOR_OVERLAYS ->
        gate_calls (after deps c e)
        = gate_calls e ++ [MarkTick "READY_FOR_OVERLAYS";
                           RequestUnmask "renderer-ready-for-overlays"])
  /\ (c = TimerFires refresh_complete ->
        gate_calls (after deps c e) = gate_calls e ++ [RequestUnmask "refresh-complete"]).
Proof.
  destruct e as [[t fn lp pn sc rr ov dirty fs sel vp st] w h].
  unfold unmask_requests, gate_calls, asks_gate.
  split; [|split; [|split]].
  - destruct c; crunch; intros H; first [reflexivity|discriminate H].
  - intros raw -> Hp. reduce_m. rewrite Hp. reduce_m.
    cbn [flat_map rev app]. rewrite <- !app_assoc. reflexivity.
  - intros raw -> Hp. reduce_m. rewrite Hp. reduce_m.
    cbn [flat_map rev app]. rewrite <- !app_assoc. reflexivity.
  - intros ->. reflexivity.
Qed.

Lemma unmask_requests_sources_witness :
  let loaded := after Sample.deps (OpenDocument Sample.request) Sample.start in
  unmask_requests (after Sample.deps (SaveText "fullName" "Jane Doe") loaded) = []
  /\ gate_calls (after Sample.deps (OnRendererMessage Sample.render_done_msg) loaded)
     = [MarkTick "RENDER_DONE"; MarkRenderDone; RequestUnmask "render-done"].
Proof.
  intros loaded. split.
  - exact (proj1 (unmask_requests_sources Sample.deps loaded
                    (SaveText "fullName" "Jane Doe")) eq_refl).
  - exact (proj1 (proj2 (unmask_requests_sources Sample.deps loaded
                    (OnRendererMessage Sample.render_done_msg)))
             Sample.render_done_msg eq_refl eq_refl).
Defined.

(* ===================================================================== *)
(** * Outbound commands                                                   *)
(* ===================================================================== *)

Example serializeRendererCommand_texts :
  serializeRendererCommand whole_number_text (SET_PAGE (JFin 12))
  = lit "{'type':'SET_PAGE','pageNumber':12}"
  /\ serializeRendererCommand whole_number_text (SET_SCALE JNaN)
     = lit "{'type':'SET_SCALE','scale':null}"
  /\ serializeRendererCommand whole_number_text (LOAD_PDF_BASE64 "JVBERi0x+/=")
     = lit "{'type':'LOAD_PDF_BASE64','base64':'JVBERi0x+/='}".
Proof. repeat split; reflexivity. Qed.

(** *** Reading back what [JSON.stringify] wrote *)

Lemma append_assoc_string (a b c : string) : ((a ++ b) ++ c = a ++ (b ++ c))%string.
Proof. induction a as [|x a IH]; cbn [append]; [reflexivity|]. rewrite IH. reflexivity. Qed.

Lemma lex_quiet m c rest m' :
  lex_step m c = Some ([], m') -> lex m (String c rest) = lex m' rest.
Proof. intros H. cbn [lex]. rewrite H. destruct (lex m' rest); reflexivity. Qed.

Lemma lex_emit m c rest toks m' :
  lex_step m c = Some (toks, m') ->
  lex m (String c rest) = option_map (app toks) (lex m' rest).
Proof. intros H. cbn [lex]. rewrite H. destruct (lex m' rest); reflexivity. Qed.

Lemma lex_append m s rest toks m2 :
  lex_run m s = Some (toks, m2) ->
  lex m (s ++ rest) = option_map (app toks) (lex m2 rest).
Proof.
  revert m toks. induction s as [|c s IH]; intros m toks; cbn [lex_run append].
  - intros H. injection H as <- <-. destruct (lex m rest); reflexivity.
  - cbn [lex]. destruct (lex_step m c) as [[t1 m1]|]; [|discriminate].
    destruct (lex_run m1 s) as [[t3 m3]|] eqn:Hs; [|discriminate].
    intros H. injection H as <- <-. rewrite (IH _ _ Hs).
    destruct (lex m3 rest); cbn [option_map]; [rewrite app_assoc|]; reflexivity.
Qed.

Lemma lex_run_quote_char c bs :
  lex_run (LxString bs None EscNone) (quote_char c)
  = Some ([], LxString (c :: bs) None EscNone).
Proof. destruct c as [[] [] [] [] [] [] [] []]; vm_compute; reflexivity. Qed.

Lemma lex_quote_char c bs rest :
  lex (LxString bs None EscNone) (quote_char c ++ rest)
  = lex (LxString (c :: bs) None EscNone) rest.
Proof.
  rewrite (lex_append _ _ _ _ _ (lex_run_quote_char c bs)).
  destruct (lex _ rest); reflexivity.
Qed.

Lemma lex_quote_body s bs rest :
  lex (LxString bs None EscNone) (quote_body s ++ rest)
  = lex (LxString (rev (list_ascii_of_string s) ++ bs) None EscNone) rest.
Proof.
  revert bs. induction s as [|c s IH]; intros bs; cbn [quote_body]; [reflexivity|].
  rewrite append_assoc_string, lex_quote_char, IH.
  cbn [list_ascii_of_string rev]. rewrite <- app_assoc. reflexivity.
Qed.

Lemma lex_JSON_quote s rest :
  lex LxIdle (JSON_quote s ++ rest) = option_map (cons (TString s)) (lex LxIdle rest).
Proof.
  unfold JSON_quote. cbn [append].
  erewrite lex_quiet by reflexivity.
  rewrite append_assoc_string, lex_quote_body. cbn [append].
  erewrite lex_emit by reflexivity.
  cbn [flush]. rewrite app_nil_r, rev_involutive, string_of_list_ascii_of_string.
  reflexivity.
Qed.

Lemma lex_punctuation c rest toks :
  lex_idle c = Some (toks, LxIdle) ->
  lex LxIdle (String c rest) = option_map (app toks) (lex LxIdle rest).
Proof. intros H. apply lex_emit. exact H. Qed.

(** The text of a string member, between its colon and the closing brace. *)
Lemma lex_pair_of_strings k1 s1 k2 s2 :
  lex LxIdle (stringify_pair k1 (JSON_quote s1) k2 (JSON_quote s2))
  = Some [TLBrace; TString k1; TColon; TString s1; TComma;
          TString k2; TColon; TString s2; TRBrace].
Proof.
  unfold stringify_pair. cbn [append].
  erewrite lex_punctuation by reflexivity. rewrite lex_JSON_quote. cbn [append].
  erewrite lex_punctuation by reflexivity. rewrite lex_JSON_quote. cbn [append].
  erewrite lex_punctuation by reflexivity. rewrite lex_JSON_quote. cbn [append].
  erewrite lex_punctuation by reflexivity. rewrite lex_JSON_quote. cbn [append].
  erewrite lex_punctuation by reflexivity. reflexivity.
Qed.

(** X18.  Whatever the base64 string holds (quotes, backslashes and control
    characters included), the text [serializeRendererCommand] writes for a
    LOAD_PDF_BASE64 command is JSON that parses back to an object with
    exactly the members [type], holding LOAD_PDF_BASE64, and [base64],
    holding the same string. *)
Theorem load_command_round_trip (F : Formatting) (base64 : string) :
  JSON_parse (serializeRendererCommand F (LOAD_PDF_BASE64 base64))
  = Ok (VObj [("type", VStr "LOAD_PDF_BASE64"); ("base64", VStr base64)]).
Proof.
  unfold JSON_parse. cbn [serializeRendererCommand].
  rewrite lex_pair_of_strings. reflexivity.
Qed.

(** *** Number texts *)

Lemma span_digits_spec (cs : list ascii) ds tl :
  span_digits cs = (ds, tl) -> cs = ds ++ tl /\ Forall (fun c => is_digit c = true) ds.
Proof.
  revert ds tl. induction cs as [|c cs IH]; cbn [span_digits]; intros ds tl H.
  - injection H as <- <-. split; [reflexivity|constructor].
  - destruct (is_digit c) eqn:Hc.
    + destruct (span_digits cs) as [ds' tl'] eqn:Hs. injection H as <- <-.
      destruct (IH _ _ eq_refl) as [-> HF]. split; [reflexivity|constructor; assumption].
    + injection H as <- <-. split; [reflexivity|constructor].
Qed.

Lemma digit_numchar c : is_digit c = true -> is_numchar c = true.
Proof. intros H. unfold is_numchar. rewrite H. reflexivity. Qed.

Lemma digits_numchars ds :
  Forall (fun c => is_digit c = true) ds -> Forall (fun c => is_numchar c = true) ds.
Proof. intros H. induction H; constructor; auto using digit_numchar. Qed.

Lemma eqb_numchar c (d : ascii) :
  is_numchar d = true -> Ascii.eqb c d = true -> is_numchar c = true.
Proof. intros Hd Hc. apply Ascii.eqb_eq in Hc. subst c. exact Hd. Qed.

Lemma number_value_body (cs : list ascii) :
  number_value cs
  = match cs with
    | c :: r => if Ascii.eqb c "-" then number_body true r else number_body false cs
    | [] => number_body false cs
    end.
Proof. destruct cs as [|c r]; [reflexivity|]. unfold number_value. destruct (Ascii.eqb c "-"); reflexivity. Qed.

Lemma number_body_shape neg (cs1 : list ascii) q :
  number_body neg cs1 = Some q ->
  Forall (fun c => is_numchar c = true) cs1
  /\ exists c cs', cs1 = c :: cs' /\ is_digit c = true.
Proof.
  unfold number_body.
  destruct (span_digits cs1) as [ip cs2] eqn:Hip.
  destruct (span_digits_spec _ _ _ Hip) as [-> Hd].
  destruct ip as [|d ip]; [congruence|].
  destruct (leading_zero (d :: ip)); [congruence|].
  intros H. split.
  2:{ exists d, (ip ++ cs2). split; [reflexivity|]. inversion Hd; assumption. }
  apply Forall_app. split; [apply digits_numchars; exact Hd|].
  revert H. clear Hip.
  assert (Hexp : forall cs3 (fp : list ascii),
    match
      match cs3 with
      | [] => Some 0%Z
      | c :: r =>
          if Ascii.eqb c "e" || Ascii.eqb c "E" then
            let (eneg, r1) :=
              match r with
              | [] => (false, r)
              | s :: r' =>
                  if Ascii.eqb s "-" then (true, r')
                  else if Ascii.eqb s "+" then (false, r')
                  else (false, r)
              end in
            let (ed, r2) := span_digits r1 in
            match ed, r2 with
            | _ :: _, [] =>
                Some (if eneg then (- digits_value ed)%Z else digits_value ed)
            | _, _ => None
            end
          else None
      end
    with
    | None => None
    | Some e =>
        Some (if neg
              then Qred (- Qred (inject_Z (digits_value ((d :: ip) ++ fp))
                                 * Qpower (inject_Z 10) (e - Z.of_nat (length fp))))
              else Qred (inject_Z (digits_value ((d :: ip) ++ fp))
                         * Qpower (inject_Z 10) (e - Z.of_nat (length fp))))
    end = Some q ->
    Forall (fun c => is_numchar c = true) cs3).
  { intros cs3 fp. destruct cs3 as [|c r]; [constructor|].
    destruct (Ascii.eqb c "e" || Ascii.eqb c "E") eqn:He; [|discriminate].
    assert (Hc2 : is_numchar c = true).
    { apply orb_true_iff in He. destruct He as [He|He];
        [apply (eqb_numchar c "e" eq_refl He)|apply (eqb_numchar c "E" eq_refl He)]. }
    intros H. constructor; [exact Hc2|]. revert H.
    destruct r as [|sg r3].
    - constructor.
    - destruct (Ascii.eqb sg "-") eqn:Hm; [|destruct (Ascii.eqb sg "+") eqn:Hpl].
      + destruct (span_digits r3) as [ed r4] eqn:Hed.
        destruct (span_digits_spec _ _ _ Hed) as [-> Hedd].
        destruct ed; [discriminate|]. destruct r4; [|discriminate]. intros _.
        constructor; [apply (eqb_numchar sg "-" eq_refl Hm)|].
        rewrite app_nil_r. apply digits_numchars; exact Hedd.
      + destruct (span_digits r3) as [ed r4] eqn:Hed.
        destruct (span_digits_spec _ _ _ Hed) as [-> Hedd].
        destruct ed; [discriminate|]. destruct r4; [|discriminate]. intros _.
        constructor; [apply (eqb_numchar sg "+" eq_refl Hpl)|].
        rewrite app_nil_r. apply digits_numchars; exact Hedd.
      + destruct (span_digits (sg :: r3)) as [ed r4] eqn:Hed.
        destruct (span_digits_spec _ _ _ Hed) as [Heq Hedd].
        destruct ed; [discriminate|]. destruct r4; [|discriminate]. intros _.
        rewrite Heq, app_nil_r. apply digits_numchars; exact Hedd. }
  destruct cs2 as [|c r]; [constructor|].
  destruct (Ascii.eqb c ".") eqn:Hdot.
  - destruct (span_digits r) as [fp r'] eqn:Hfp.
    destruct (span_digits_spec _ _ _ Hfp) as [-> Hfd].
    destruct fp as [|f fp]; [discriminate|].
    intros H. constructor; [apply (eqb_numchar c "." eq_refl Hdot)|].
    apply Forall_app. split; [apply digits_numchars; exact Hfd|].
    exact (Hexp r' (f :: fp) H).
  - intros H. exact (Hexp (c :: r) [] H).
Qed.

(** A text that [number_value] accepts is made of number characters and
    begins with a digit or the minus sign. *)
Lemma number_value_shape (cs : list ascii) q :
  number_value cs = Some q ->
  Forall (fun c => is_numchar c = true) cs
  /\ exists c cs', cs = c :: cs' /\ (is_digit c || Ascii.eqb c "-") = true.
Proof.
  rewrite number_value_body. destruct cs as [|c r].
  - intros H. destruct (number_body_shape _ _ _ H) as [_ (c & cs' & Hc & _)]. discriminate Hc.
  - destruct (Ascii.eqb c "-") eqn:Hm; intros H.
    + destruct (number_body_shape _ _ _ H) as [HF _]. split.
      * constructor; [apply (eqb_numchar c "-" eq_refl Hm)|exact HF].
      * exists c, r. split; [reflexivity|]. rewrite Hm. apply orb_true_r.
    + destruct (number_body_shape _ _ _ H) as [HF (c' & cs' & Hc & Hd)]. split; [exact HF|].
      exists c, r. split; [reflexivity|]. injection Hc as <- <-. rewrite Hd. reflexivity.
Qed.

Lemma lex_idle_number_start c :
  (is_digit c || Ascii.eqb c "-") = true -> lex_idle c = Some ([], LxNumber [c]).
Proof.
  destruct c as [[] [] [] [] [] [] [] []]; intros H; vm_compute in H;
    first [discriminate H | reflexivity].
Qed.

Lemma lex_number_chars cs acc rest :
  Forall (fun c => is_numchar c = true) cs ->
  lex (LxNumber acc) (string_of_list_ascii cs ++ rest) = lex (LxNumber (rev cs ++ acc)) rest.
Proof.
  intros H. revert acc. induction H as [|c cs Hc _ IH]; intros acc; [reflexivity|].
  cbn [string_of_list_ascii append rev].
  rewrite (lex_quiet (LxNumber acc) c _ (LxNumber (c :: acc)))
    by (cbn [lex_step]; rewrite Hc; reflexivity).
  rewrite IH, <- app_assoc. reflexivity.
Qed.

(** A number text before a closing brace is read as one number token. *)
Lemma lex_number_text t q rest :
  number_value (list_ascii_of_string t) = Some q ->
  lex LxIdle (t ++ String "}" rest)
  = option_map (fun more => TNumber q :: TRBrace :: more) (lex LxIdle rest).
Proof.
  intros Hq. destruct (number_value_shape _ _ Hq) as [HF (c & cs' & Hcs & Hc)].
  rewrite <- (string_of_list_ascii_of_string t), Hcs.
  rewrite Hcs in HF, Hq. inversion HF as [|? ? _ HF']; subst.
  cbn [string_of_list_ascii append].
  rewrite (lex_quiet LxIdle c _ (LxNumber [c]) (lex_idle_number_start c Hc)).
  rewrite (lex_number_chars cs' [c] _ HF').
  rewrite (lex_emit (LxNumber (rev cs' ++ [c])) "}" rest [TNumber q; TRBrace] LxIdle).
  - destruct (lex LxIdle rest); reflexivity.
  - cbn [lex_step]. change (is_numchar "}") with false. cbn iota.
    unfold number_token. rewrite rev_app_distr, rev_involutive. cbn [rev app].
    rewrite Hq. reflexivity.
Qed.

Lemma lex_pair_with_number k1 s1 k2 t q :
  number_value (list_ascii_of_string t) = Some q ->
  lex LxIdle (stringify_pair k1 (JSON_quote s1) k2 t)
  = Some [TLBrace; TString k1; TColon; TString s1; TComma;
          TString k2; TColon; TNumber q; TRBrace].
Proof.
  intros Hq. unfold stringify_pair. cbn [append].
  erewrite lex_punctuation by reflexivity. rewrite lex_JSON_quote. cbn [append].
  erewrite lex_punctuation by reflexivity. rewrite lex_JSON_quote. cbn [append].
  erewrite lex_punctuation by reflexivity. rewrite lex_JSON_quote. cbn [append].
  erewrite lex_punctuation by reflexivity.
  rewrite (lex_number_text t q EmptyString Hq). reflexivity.
Qed.

Lemma lex_pair_with_null k1 s1 k2 :
  lex LxIdle (stringify_pair k1 (JSON_quote s1) k2 "null")
  = Some [TLBrace; TString k1; TColon; TString s1; TComma;
          TString k2; TColon; TNull; TRBrace].
Proof.
  unfold stringify_pair. cbn [append].
  erewrite lex_punctuation by reflexivity. rewrite lex_JSON_quote. cbn [append].
  erewrite lex_punctuation by reflexivity. rewrite lex_JSON_quote. cbn [append].
  erewrite lex_punctuation by reflexivity. rewrite lex_JSON_quote. cbn [append].
  erewrite lex_punctuation by reflexivity. reflexivity.
Qed.

Lemma pair_is_no_event B raw ty k2 v :
  JSON_parse raw = Ok (VObj [("type", VStr ty); (k2, v)]) ->
  String.eqb "type" k2 = false ->
  ~ In ty recognized_types ->
  parseRendererInboundMessage B raw = None.
Proof.
  intros Hj Hk Hn. unfold parseRendererInboundMessage.
  rewrite (parse_try_unrecognized B raw _ ty Hj); [reflexivity| |exact Hn].
  cbn [get_property assoc_last]. rewrite Hk. rewrite String.eqb_refl. reflexivity.
Qed.

(** X19.  No outbound command is taken for an inbound event: the text
    [serializeRendererCommand] writes for a command parses, with
    [parseRendererInboundMessage], to no event.  For SET_PAGE and SET_SCALE
    with a finite number this holds when the platform's text of the number
    is a JSON number. *)
Theorem outbound_command_is_no_inbound_event (B : Coercions) (F : Formatting)
    (cmd : RendererOutboundCommand) :
  (forall q, cmd = SET_PAGE (JFin q) \/ cmd = SET_SCALE (JFin q) ->
     number_value (list_ascii_of_string (NumberToString F q)) <> None) ->
  parseRendererInboundMessage B (serializeRendererCommand F cmd) = None.
Proof.
  intros HF. destruct cmd as [base64|n|n].
  - apply (pair_is_no_event B _ "LOAD_PDF_BASE64" "base64" (VStr base64)).
    + apply load_command_round_trip.
    + reflexivity.
    + cbn. intros [H|[H|[H|[H|[H|[]]]]]]; discriminate H.
  - destruct n as [| |q]; cbn [serializeRendererCommand stringify_number].
    1,2: apply (pair_is_no_event B _ "SET_PAGE" "pageNumber" VNull);
      [unfold JSON_parse; rewrite lex_pair_with_null; reflexivity
      |reflexivity
      |cbn; intros [H|[H|[H|[H|[H|[]]]]]]; discriminate H].
    destruct (number_value (list_ascii_of_string (NumberToString F q))) as [q'|] eqn:Hq;
      [|exfalso; apply (HF q); [left; reflexivity|exact Hq]].
    apply (pair_is_no_event B _ "SET_PAGE" "pageNumber" (VNum (JFin q'))).
    + unfold JSON_parse. rewrite (lex_pair_with_number _ _ _ _ _ Hq). reflexivity.
    + reflexivity.
    + cbn. intros [H|[H|[H|[H|[H|[]]]]]]; discriminate H.
  - destruct n as [| |q]; cbn [serializeRendererCommand stringify_number].
    1,2: apply (pair_is_no_event B _ "SET_SCALE" "scale" VNull);
      [unfold JSON_parse; rewrite lex_pair_with_null; reflexivity
      |reflexivity
      |cbn; intros [H|[H|[H|[H|[H|[]]]]]]; discriminate H].
    destruct (number_value (list_ascii_of_string (NumberToString F q))) as [q'|] eqn:Hq;
      [|exfalso; apply (HF q); [right; reflexivity|exact Hq]].
    apply (pair_is_no_event B _ "SET_SCALE" "scale" (VNum (JFin q'))).
    + unfold JSON_parse. rewrite (lex_pair_with_number _ _ _ _ _ Hq). reflexivity.
    + reflexivity.
    + cbn. intros [H|[H|[H|[H|[H|[]]]]]]; discriminate H.
Qed.

Lemma outbound_command_is_no_inbound_event_witness :
  parseRendererInboundMessage no_coercion
    (serializeRendererCommand whole_number_text (SET_PAGE (JFin 12))) = None.
Proof.
  apply outbound_command_is_no_inbound_event.
  intros q [H|H]; [|discriminate H].
  injection H as <-. intros Hn. discriminate Hn.
Defined.
